(** * gerber/excellon.py: the Excellon drill-file parser

    A shallow embedding of [ExcellonParser], [ExcellonTool] and
    [ExcellonFile] of [gerber/excellon.py], and the properties of the
    line-by-line state machine [ExcellonParser._parse].

    Python values are modelled as follows.
    - [str] is [string]; the string methods used by the parser ([in],
      [strip], [split], indexing, [int]) are the [py_*] functions below.
    - [float] is IEEE 754 binary64, Rocq's primitive [float].
    - [int] is [Z].
    - Exceptions are values of [PyExc]; a computation that can raise
      returns a [Result].
    - Objects that are mutated through several references live in a
      store and are referred to by their index in it: tool objects in
      [heap], lists of two coordinates in [lists]. *)

From Stdlib Require Import PrimFloat SpecFloat FloatOps ZArith String Ascii List Bool Lia.
From stdpp Require Import base option list gmap strings.

Local Open Scope Z_scope.

(** ** Exceptions and fallible computations *)

Inductive PyExc : Type :=
| IndexError
| KeyError (k : option Z)
| ValueError
| AttributeError
| MalformedNumberError.

Inductive Result (A : Type) : Type :=
| Ok (a : A)
| Raise (e : PyExc).
Arguments Ok {A} a.
Arguments Raise {A} e.

Definition rbind {A B : Type} (r : Result A) (k : A -> Result B) : Result B :=
  match r with
  | Ok a => k a
  | Raise e => Raise e
  end.

(** ** Python string primitives *)

(** [sub in s] *)
Fixpoint py_in (sub s : string) : bool :=
  String.prefix sub s ||
  match s with
  | EmptyString => false
  | String _ s' => py_in sub s'
  end.

(** [s[i]] on a list; raises [IndexError] out of range. *)
Definition getitem {A : Type} (l : list A) (i : nat) : Result A :=
  match l !! i with
  | Some a => Ok a
  | None => Raise IndexError
  end.

(** [s[0]] on a string. *)
Definition getitem0 (s : string) : Result ascii :=
  match s with
  | EmptyString => Raise IndexError
  | String c _ => Ok c
  end.

(** The characters [str.strip()] removes: space, [\t], [\n], [\x0b],
    [\x0c], [\r]. *)
Definition is_space (c : ascii) : bool :=
  let n := Z.of_N (N_of_ascii c) in
  (n =? 32) || ((9 <=? n) && (n <=? 13)).

Fixpoint lstrip (f : ascii -> bool) (s : string) : string :=
  match s with
  | EmptyString => EmptyString
  | String c s' => if f c then lstrip f s' else s
  end.

Fixpoint rstrip (f : ascii -> bool) (s : string) : string :=
  match s with
  | EmptyString => EmptyString
  | String c s' =>
      match rstrip f s' with
      | EmptyString => if f c then EmptyString else String c EmptyString
      | r => String c r
      end
  end.

(** [s.strip()] *)
Definition py_strip (s : string) : string :=
  rstrip is_space (lstrip is_space s).

Fixpoint char_in (c : ascii) (chars : string) : bool :=
  match chars with
  | EmptyString => false
  | String d r => Ascii.eqb c d || char_in c r
  end.

(** [s.strip(chars)] *)
Definition py_strip_chars (chars s : string) : string :=
  rstrip (fun c => char_in c chars) (lstrip (fun c => char_in c chars) s).

(** [s.split(sep)] for a one-character separator. *)
Fixpoint py_split (sep : ascii) (s : string) : list string :=
  match s with
  | EmptyString => [EmptyString]
  | String c s' =>
      if Ascii.eqb c sep then EmptyString :: py_split sep s'
      else match py_split sep s' with
           | w :: ws => String c w :: ws
           | [] => [String c EmptyString]
           end
  end.

(** [re.split('([...])', s)] for a character class in a capturing group:
    the pieces of text and the separators, interleaved. *)
Fixpoint re_split (is_sep : ascii -> bool) (s : string) : list string :=
  match s with
  | EmptyString => [EmptyString]
  | String c s' =>
      if is_sep c
      then EmptyString :: String c EmptyString :: re_split is_sep s'
      else match re_split is_sep s' with
           | w :: ws => String c w :: ws
           | [] => [String c EmptyString]
           end
  end.

Definition digit_of (c : ascii) : option Z :=
  let n := Z.of_N (N_of_ascii c) in
  if (48 <=? n) && (n <=? 57) then Some (n - 48) else None.

Fixpoint digits_value (acc : Z) (s : string) : option Z :=
  match s with
  | EmptyString => Some acc
  | String c s' =>
      match digit_of c with
      | Some d => digits_value (10 * acc + d) s'
      | None => None
      end
  end.

(** [int(s)]: surrounding whitespace, an optional sign, then at least one
    decimal digit; anything else raises [ValueError]. *)
Definition py_int (s : string) : Result Z :=
  let s := py_strip s in
  let '(neg, body) :=
    match s with
    | String "-"%char r => (true, r)
    | String "+"%char r => (false, r)
    | _ => (false, s)
    end in
  match body with
  | EmptyString => Raise ValueError
  | _ => match digits_value 0 body with
         | Some n => Ok (if neg then - n else n)
         | None => Raise ValueError
         end
  end.

(** [pairwise] (lines 277-280), with the generators of Python 2, the
    language of [itr.next()]: consecutive pairs; a last odd element ends
    the generator without a pair. *)
Fixpoint pairwise {A : Type} (l : list A) : list (A * A) :=
  match l with
  | a :: b :: r => (a, b) :: pairwise r
  | _ => []
  end.

(** ** Data model *)

Inductive State : Type := INIT | HEADER | ROUT | DRILL.
Inductive Units : Type := inch | metric.
Inductive Notation : Type := absolute | incremental.
Inductive ZeroSuppression : Type := leading | trailing | no_suppression.

Global Instance State_eq_dec : EqDecision State.
Proof. solve_decision. Defined.
Global Instance Notation_eq_dec : EqDecision Notation.
Proof. solve_decision. Defined.
Global Instance Units_eq_dec : EqDecision Units.
Proof. solve_decision. Defined.

Module FileSettings.
(** Modelled from the spec: [FileSettings] of [gerber/cnc.py] is not part
    of the sources at hand.  It is the immutable snapshot of the
    coordinate interpretation (units, format, zero suppression,
    notation) that [_settings] builds and that is read by key. *)
Record t : Type := mk {
  units : Units;
  format : nat * nat;
  zero_suppression : ZeroSuppression;
  notation : Notation
}.
End FileSettings.

(** A reference to an object: its index in the store of its kind. *)
Definition loc : Type := nat.

Module ExcellonTool.
(** The keyword arguments [from_line] collects in [args]. *)
Record kwargs : Type := mk_kwargs {
  kw_number : option Z;
  kw_feed_rate : option float;
  kw_retract_rate : option float;
  kw_rpm : option float;
  kw_diameter : option float;
  kw_max_hit_count : option float;
  kw_depth_offset : option float
}.

Definition no_kwargs : kwargs := mk_kwargs None None None None None None None.

(** The attributes of an [ExcellonTool] (lines 155-163). *)
Record t : Type := mk {
  number : option Z;
  feed_rate : option float;
  retract_rate : option float;
  rpm : option float;
  diameter : option float;
  max_hit_count : option float;
  depth_offset : option float;
  units : Units;
  hit_count : Z
}.

(** [ExcellonTool.__init__] (lines 154-163): an absent keyword gives
    [None]; the units are those of the settings; no hit yet. *)
Definition __init__ (settings : FileSettings.t) (kw : kwargs) : t :=
  {| number := kw_number kw;
     feed_rate := kw_feed_rate kw;
     retract_rate := kw_retract_rate kw;
     rpm := kw_rpm kw;
     diameter := kw_diameter kw;
     max_hit_count := kw_max_hit_count kw;
     depth_offset := kw_depth_offset kw;
     units := FileSettings.units settings;
     hit_count := 0 |}.

(** [ExcellonTool._hit] (lines 165-166): [self.hit_count += 1]. *)
Definition _hit (self : t) : t :=
  {| number := number self;
     feed_rate := feed_rate self;
     retract_rate := retract_rate self;
     rpm := rpm self;
     diameter := diameter self;
     max_hit_count := max_hit_count self;
     depth_offset := depth_offset self;
     units := units self;
     hit_count := hit_count self + 1 |}.
End ExcellonTool.

(** An element of [self.hits]: the tuple [(self.active_tool, self.pos)],
    two references, the first to a tool object or [None], the second to
    a list of two coordinates. *)
Definition Hit : Type := (option loc * loc)%type.

(** Modelled from the spec: the rendering sink [ctx] is an external
    collaborator.  It is represented by the calls the parser has made on
    it, oldest first.  An argument of [drill] is [None] when the
    expression passed is [None] or reads through a reference to no
    object. *)
Inductive SinkCall : Type :=
| set_coord_format (zs : ZeroSuppression) (fmt : nat * nat) (n : Notation)
| drill (x y : option float) (diameter : option float).

Record ExcellonParser : Type := mkParser {
  ctx : option (list SinkCall);
  notation : Notation;
  units : Units;
  zero_suppression : ZeroSuppression;
  format : nat * nat;
  state : State;
  tools : gmap (option Z) loc;
  hits : list Hit;
  active_tool : option loc;
  (** [self.pos] refers to a list of two coordinates *)
  pos : loc;
  (** [self.zeros], an attribute [__init__] does not create *)
  zeros : option string;
  (** the tool objects created so far *)
  heap : list ExcellonTool.t;
  (** the lists of two coordinates created so far *)
  lists : list (float * float)
}.

Record ExcellonFile : Type := mkFile {
  file_tools : gmap (option Z) loc;
  file_hits : list Hit;
  file_settings : FileSettings.t;
  file_filename : string
}.

Definition set_ctx (v : option (list SinkCall)) (p : ExcellonParser) :=
  mkParser v (notation p) (units p) (zero_suppression p) (format p) (state p)
           (tools p) (hits p) (active_tool p) (pos p) (zeros p) (heap p) (lists p).
Definition set_notation (v : Notation) (p : ExcellonParser) :=
  mkParser (ctx p) v (units p) (zero_suppression p) (format p) (state p)
           (tools p) (hits p) (active_tool p) (pos p) (zeros p) (heap p) (lists p).
Definition set_units (v : Units) (p : ExcellonParser) :=
  mkParser (ctx p) (notation p) v (zero_suppression p) (format p) (state p)
           (tools p) (hits p) (active_tool p) (pos p) (zeros p) (heap p) (lists p).
Definition set_state (v : State) (p : ExcellonParser) :=
  mkParser (ctx p) (notation p) (units p) (zero_suppression p) (format p) v
           (tools p) (hits p) (active_tool p) (pos p) (zeros p) (heap p) (lists p).
Definition set_tools (v : gmap (option Z) loc) (p : ExcellonParser) :=
  mkParser (ctx p) (notation p) (units p) (zero_suppression p) (format p) (state p)
           v (hits p) (active_tool p) (pos p) (zeros p) (heap p) (lists p).
Definition set_hits (v : list Hit) (p : ExcellonParser) :=
  mkParser (ctx p) (notation p) (units p) (zero_suppression p) (format p) (state p)
           (tools p) v (active_tool p) (pos p) (zeros p) (heap p) (lists p).
Definition set_active_tool (v : option loc) (p : ExcellonParser) :=
  mkParser (ctx p) (notation p) (units p) (zero_suppression p) (format p) (state p)
           (tools p) (hits p) v (pos p) (zeros p) (heap p) (lists p).
Definition set_lists (v : list (float * float)) (p : ExcellonParser) :=
  mkParser (ctx p) (notation p) (units p) (zero_suppression p) (format p) (state p)
           (tools p) (hits p) (active_tool p) (pos p) (zeros p) (heap p) v.
Definition set_zeros (v : option string) (p : ExcellonParser) :=
  mkParser (ctx p) (notation p) (units p) (zero_suppression p) (format p) (state p)
           (tools p) (hits p) (active_tool p) (pos p) v (heap p) (lists p).
Definition set_heap (v : list ExcellonTool.t) (p : ExcellonParser) :=
  mkParser (ctx p) (notation p) (units p) (zero_suppression p) (format p) (state p)
           (tools p) (hits p) (active_tool p) (pos p) (zeros p) v (lists p).

(** The coordinates [self.pos] refers to: the cursor. *)
Definition cursor (p : ExcellonParser) : option (float * float) :=
  lists p !! pos p.

(** The position a hit refers to, read through its reference in the
    store of parser [p]. *)
Definition hit_pos (p : ExcellonParser) (h : Hit) : option (float * float) :=
  lists p !! snd h.

(** ** The coordinate decoder *)

(** [parse_gerber_value] of [gerber/utils.py] is not part of the sources
    at hand.  The parser is verified for an arbitrary decoder; the one
    below, the CoordinateCodec of the specification, serves to run it on
    concrete lines. *)

(** The float nearest to [n / 10^decimals] (ties to even, infinity on
    overflow), for [n] not negative: the value [float()] gives the
    decimal numeral with digits [n] and [decimals] digits after the
    point.  The quotient of the two integers is rounded once, by the
    division of the library's specification of binary64. *)
Definition scaled (n : Z) (decimals : nat) : float :=
  match n with
  | Zpos m =>
      SF2Prim (SFdiv prec emax (S754_finite false m 0)
                 (S754_finite false (Z.to_pos (10 ^ Z.of_nat decimals)) 0))
  | _ => 0%float
  end.

(** Modelled from the spec: the decoder of section 4.1 for a token
    without sign.  A token with an explicit decimal point is read
    literally; otherwise the digits are padded with zeros to
    [integer_digits + decimal_digits] positions, on the right for
    trailing suppression and on the left for leading suppression, and the
    decimal point is placed [decimal_digits] from the right; with no
    suppression the digits must have that width.  Anything but digits and
    one point is a [MalformedNumberError]. *)
Definition decode_unsigned (body : string) (fmt : nat * nat)
    (zs : ZeroSuppression) : Result float :=
  match py_split "." body with
  | [digits] =>
      let width := (fst fmt + snd fmt)%nat in
      let n := String.length digits in
      match digits_value 0 digits with
      | None => Raise MalformedNumberError
      | Some v =>
          if (width <? n)%nat then Raise MalformedNumberError
          else match zs with
               | trailing => Ok (scaled (v * 10 ^ Z.of_nat (width - n)) (snd fmt))
               | leading => Ok (scaled v (snd fmt))
               | no_suppression =>
                   if (n =? width)%nat then Ok (scaled v (snd fmt))
                   else Raise MalformedNumberError
               end
      end
  | [ip; fp] =>
      match digits_value 0 (ip +:+ fp) with
      | None => Raise MalformedNumberError
      | Some v => Ok (scaled v (String.length fp))
      end
  | _ => Raise MalformedNumberError
  end.

(** Modelled from the spec: [decode(token, format, zero_suppression)] of
    section 4.1, in place of [parse_gerber_value]: a leading sign is
    stripped before padding and reapplied to the value. *)
Definition decode (token : string) (fmt : nat * nat)
    (zs : ZeroSuppression) : Result float :=
  match token with
  | String "-"%char body =>
      rbind (decode_unsigned body fmt zs) (fun v => Ok (PrimFloat.opp v))
  | String "+"%char body => decode_unsigned body fmt zs
  | _ => decode_unsigned token fmt zs
  end.

(** ** The parser's computations

    A method of [ExcellonParser] runs on the parser object and either
    returns or raises; in both cases the assignments made so far remain
    on the object.  [M A] is such a computation. *)

Global Instance Result_ret : MRet Result := fun A a => Ok a.
Global Instance Result_bind : MBind Result := fun A B k r => rbind r k.

Definition M (A : Type) : Type := ExcellonParser -> Result A * ExcellonParser.

Global Instance M_ret : MRet M := fun A a p => (Ok a, p).
Global Instance M_bind : MBind M := fun A B k m p =>
  match m p with
  | (Ok a, p') => k a p'
  | (Raise e, p') => (Raise e, p')
  end.

Definition raise {A : Type} (e : PyExc) : M A := fun p => (Raise e, p).
Definition lift {A : Type} (r : Result A) : M A := fun p => (r, p).
Definition get {A : Type} (f : ExcellonParser -> A) : M A := fun p => (Ok (f p), p).
Definition modify (f : ExcellonParser -> ExcellonParser) : M unit :=
  fun p => (Ok tt, f p).
Definition when (b : bool) (m : M unit) : M unit := if b then m else mret tt.

(** The parser object as a computation leaves it. *)
Definition final {A : Type} (r : Result A * ExcellonParser) : ExcellonParser := snd r.

Definition returns {A : Type} (r : Result A * ExcellonParser) : Prop :=
  exists a, fst r = Ok a.

(** ** [ExcellonTool.from_line] and [ExcellonParser] *)

Section Parser.

(** [gerber.utils.parse_gerber_value(value, format, zero_suppression)]:
    any function that returns a float or raises. *)
Variable parse_gerber_value :
  string -> nat * nat -> ZeroSuppression -> Result float.

(** One iteration of the loop of [from_line] (lines 137-151). *)
Definition from_line_command (fmt : nat * nat) (zs : ZeroSuppression)
    (args : ExcellonTool.kwargs) (command : string * string)
    : Result ExcellonTool.kwargs :=
  let '(cmd, val) := command in
  let '(ExcellonTool.mk_kwargs nu fe re rp di ma de) := args in
  if String.eqb cmd "B" then
    v ← parse_gerber_value val fmt zs;
    Ok (ExcellonTool.mk_kwargs nu fe (Some v) rp di ma de)
  else if String.eqb cmd "C" then
    v ← parse_gerber_value val fmt zs;
    Ok (ExcellonTool.mk_kwargs nu fe re rp (Some v) ma de)
  else if String.eqb cmd "F" then
    v ← parse_gerber_value val fmt zs;
    Ok (ExcellonTool.mk_kwargs nu (Some v) re rp di ma de)
  else if String.eqb cmd "H" then
    v ← parse_gerber_value val fmt zs;
    Ok (ExcellonTool.mk_kwargs nu fe re rp di (Some v) de)
  else if String.eqb cmd "S" then
    v ← parse_gerber_value val fmt zs;
    Ok (ExcellonTool.mk_kwargs nu fe re (Some (PrimFloat.mul 1000 v)) di ma de)
  else if String.eqb cmd "T" then
    n ← py_int val;
    Ok (ExcellonTool.mk_kwargs (Some n) fe re rp di ma de)
  else if String.eqb cmd "Z" then
    v ← parse_gerber_value val fmt zs;
    Ok (ExcellonTool.mk_kwargs nu fe re rp di ma (Some v))
  else Ok args.

Fixpoint from_line_loop (fmt : nat * nat) (zs : ZeroSuppression)
    (commands : list (string * string)) (args : ExcellonTool.kwargs)
    : Result ExcellonTool.kwargs :=
  match commands with
  | [] => Ok args
  | command :: rest =>
      args' ← from_line_command fmt zs args command;
      from_line_loop fmt zs rest args'
  end.

Definition from_line (line : string) (settings : FileSettings.t)
    : Result ExcellonTool.t :=
  let commands :=
    pairwise (tail (re_split (fun c => char_in c "BCFHSTZ") line)) in
  let format := FileSettings.format settings in
  let zero_suppression := FileSettings.zero_suppression settings in
  args ← from_line_loop format zero_suppression commands ExcellonTool.no_kwargs;
  Ok (ExcellonTool.__init__ settings args).

(** [ExcellonParser.__init__] (lines 176-189).  The list [[0., 0.]] is
    created and bound to [self.pos].  A sink, when given, is told the
    default coordinate format. *)
Definition __init__ (ctx : option (list SinkCall)) : ExcellonParser :=
  {| ctx := match ctx with
            | Some calls => Some (calls ++ [set_coord_format trailing (2, 5)%nat absolute])
            | None => None
            end;
     notation := absolute;
     units := inch;
     zero_suppression := trailing;
     format := (2, 5)%nat;
     state := INIT;
     tools := ∅;
     hits := [];
     active_tool := None;
     pos := 0%nat;
     zeros := None;
     heap := [];
     lists := [(0%float, 0%float)] |}.

(** [ExcellonParser._settings] (lines 270-273). *)
Definition _settings (self : ExcellonParser) : FileSettings.t :=
  {| FileSettings.units := units self;
     FileSettings.format := format self;
     FileSettings.zero_suppression := zero_suppression self;
     FileSettings.notation := notation self |}.

(** Lines 202-212 of [_parse]: the phase markers. *)
Definition parse_state (line : string) : M unit :=
  when (py_in "M48" line) (modify (set_state HEADER));;
  when (py_in "G00" line) (modify (set_state ROUT));;
  if py_in "G05" line then modify (set_state DRILL)
  else
    c ← lift (getitem0 line);
    st ← get state;
    when (Ascii.eqb c "%" && bool_decide (st = HEADER)) (modify (set_state DRILL)).

(** Lines 214-218: units. *)
Definition parse_units (line : string) : M unit :=
  if py_in "INCH" line || String.eqb (py_strip line) "M72"
  then modify (set_units inch)
  else when (py_in "METRIC" line || String.eqb (py_strip line) "M71")
            (modify (set_units metric)).

(** Lines 220-224: the zero-suppression tokens assign [self.zeros]. *)
Definition parse_zeros (line : string) : M unit :=
  if py_in "LZ" line then modify (set_zeros (Some "L"%string))
  else when (py_in "TZ" line) (modify (set_zeros (Some "T"%string))).

(** Lines 226-230: notation. *)
Definition parse_notation (line : string) : M unit :=
  when (py_in "ICI" line && py_in "ON" line || String.eqb (py_strip line) "G91")
       (modify (set_notation incremental));;
  when (py_in "ICI" line && py_in "OFF" line || String.eqb (py_strip line) "G90")
       (modify (set_notation incremental)).

(** Lines 202-230: everything [_parse] does before it looks at the kind
    of line. *)
Definition directives (line : string) : M unit :=
  parse_state line;; parse_units line;; parse_zeros line;; parse_notation line.

(** [int(line.strip().split('T')[1])] of line 241. *)
Definition selected_tool_number (line : string) : Result Z :=
  s ← getitem (py_split "T" (py_strip line)) 1;
  py_int s.

(** Lines 236-241: tool definition and tool selection. *)
Definition parse_tool (line : string) : M unit :=
  c ← lift (getitem0 line);
  st ← get state;
  if Ascii.eqb c "T" && bool_decide (st = HEADER) then
    settings ← get _settings;
    tool ← lift (from_line line settings);
    h ← get heap;
    modify (set_heap (h ++ [tool]));;
    t ← get tools;
    modify (set_tools (<[ExcellonTool.number tool := length h]> t))
  else if Ascii.eqb c "T" && negb (bool_decide (st = HEADER)) then
    n ← lift (selected_tool_number line);
    t ← get tools;
    match t !! Some n with
    | Some a => modify (set_active_tool (Some a))
    | None => raise (KeyError (Some n))
    end
  else mret tt.

(** Lines 244-252: the axis values present on a coordinate line. *)
Definition axis_values (line : string) (fmt : nat * nat)
    (zs : ZeroSuppression) : Result (option float * option float) :=
  c ← getitem0 line;
  if Ascii.eqb c "X" then
    let splitline := py_split "Y" (py_strip_chars "X" line) in
    s0 ← getitem splitline 0;
    x ← parse_gerber_value (py_strip s0) fmt zs;
    if (length splitline =? 2)%nat then
      s1 ← getitem splitline 1;
      y ← parse_gerber_value (py_strip s1) fmt zs;
      Ok (Some x, Some y)
    else Ok (Some x, None)
  else
    y ← parse_gerber_value (py_strip_chars " Y" line) fmt zs;
    Ok (None, Some y).

(** Lines 253-262: the items of the list [self.pos] are assigned. *)
Definition move (n : Notation) (x y : option float) (pos : float * float)
    : float * float :=
  if decide (n = absolute) then
    (match x with Some x => x | None => fst pos end,
     match y with Some y => y | None => snd pos end)
  else
    (match x with Some x => PrimFloat.add (fst pos) x | None => fst pos end,
     match y with Some y => PrimFloat.add (snd pos) y | None => snd pos end).

(** Lines 263-268: a hit is recorded. *)
Definition record_hit : M unit :=
  a ← get active_tool;
  r ← get pos;
  h ← get hits;
  modify (set_hits (h ++ [(a, r)]));;
  match a with
  | None => raise AttributeError
  | Some a =>
      hp ← get heap;
      modify (set_heap (alter ExcellonTool._hit a hp));;
      c ← get ctx;
      match c with
      | None => mret tt
      | Some calls =>
          xy ← get cursor;
          hp ← get heap;
          modify (set_ctx (Some (calls ++
            [drill (fst <$> xy) (snd <$> xy) (hp !! a ≫= ExcellonTool.diameter)])))
      end
  end.

(** Lines 243-268: a coordinate line. *)
Definition parse_coordinate (line : string) (fmt : nat * nat)
    (zs : ZeroSuppression) : M unit :=
  c ← lift (getitem0 line);
  when (Ascii.eqb c "X" || Ascii.eqb c "Y") (
    xy ← lift (axis_values line fmt zs);
    n ← get notation;
    r ← get pos;
    l ← get lists;
    modify (set_lists (alter (move n (fst xy) (snd xy)) r l));;
    st ← get state;
    when (bool_decide (st = DRILL)) record_hit).

(** [ExcellonParser._parse] (lines 201-268). *)
Definition _parse (line : string) : M unit :=
  directives line;;
  zs ← get (fun self => FileSettings.zero_suppression (_settings self));
  fmt ← get (fun self => FileSettings.format (_settings self));
  parse_tool line;;
  parse_coordinate line fmt zs.

(** The loop of [parse] (lines 193-194). *)
Fixpoint parse_lines (lines : list string) : M unit :=
  match lines with
  | [] => mret tt
  | line :: rest => _parse line;; parse_lines rest
  end.

(** [ExcellonParser.parse] (lines 191-195); the file is given by its
    lines. *)
Definition parse (filename : string) (lines : list string) : M ExcellonFile :=
  parse_lines lines;;
  self ← get id;
  mret (mkFile (tools self) (hits self) (_settings self) filename).

(** [read] (lines 23-26). *)
Definition read (filename : string) (lines : list string)
    : Result ExcellonFile * ExcellonParser :=
  parse filename lines (__init__ None).

(** *** Vocabulary of the properties *)

(** [_parse] reaches line 264 for [line]: it is a coordinate line and the
    phase, once the markers of the line itself are taken into account,
    is DRILL. *)
Definition drill_coordinate_line (line : string) (p : ExcellonParser) : bool :=
  match getitem0 line with
  | Ok c =>
      (Ascii.eqb c "X" || Ascii.eqb c "Y")
      && bool_decide (state (final (directives line p)) = DRILL)
  | Raise _ => false
  end.

(** The coordinate lines of [lines] handled in the DRILL phase when the
    lines are parsed from [p], in line order, each given by the tool
    active at that line. *)
Fixpoint drill_tools (lines : list string) (p : ExcellonParser) : list (option loc) :=
  match lines with
  | [] => []
  | line :: rest =>
      (if drill_coordinate_line line p then [active_tool p] else [])
      ++ drill_tools rest (final (_parse line p))
  end.

End Parser.

(** The number of hits of [hs] that refer to the tool object at [a]. *)
Definition hits_of (a : loc) (hs : list Hit) : nat :=
  length (filter (fun h : Hit => fst h = Some a) hs).

(** References are to existing tool objects, and every tool object has
    counted the hits that refer to it. *)
Definition consistent_parts (hs : list Hit) (hp : list ExcellonTool.t)
    (ts : gmap (option Z) loc) (act : option loc) : Prop :=
  (forall a t, hp !! a = Some t -> ExcellonTool.hit_count t = Z.of_nat (hits_of a hs))
  /\ (forall a, act = Some a -> (a < length hp)%nat)
  /\ (forall k a, ts !! k = Some a -> (a < length hp)%nat)
  /\ (forall h a, h ∈ hs -> fst h = Some a -> (a < length hp)%nat).

Definition consistent (p : ExcellonParser) : Prop :=
  consistent_parts (hits p) (heap p) (tools p) (active_tool p).

(** Every recorded hit holds the reference that [self.pos] holds. *)
Definition hits_share_cursor (p : ExcellonParser) : Prop :=
  forall h, h ∈ hits p -> snd h = pos p.




(** ** Sample inputs *)

(** The end-to-end scenario of the specification: a header defining tool
    1, the end of the header, drill mode, the selection of tool 1 and one
    coordinate line. *)
Definition scenario : list string :=
  ["M48"; "T01C0.0100"; "%"; "G05"; "T01"; "X010000Y010000"]%string.

(** The lines that iterating over a file yields: each with its newline. *)
Definition file_lines (content : list string) : list string :=
  map (fun line => line +:+ String (ascii_of_nat 10) EmptyString) content.

(** A drill file: a header defining tool 1, the selection of tool 1 and
    two coordinate lines. *)
Definition two_hits : list string :=
  file_lines ["M48"; "T01"; "%"; "T01"; "X010000Y010000"; "X020000Y020000"]%string.

(** The same file up to its first coordinate line. *)
Definition one_hit : list string :=
  file_lines ["M48"; "T01"; "%"; "T01"; "X010000Y010000"]%string.

(** A file that asks for leading zero suppression before a coordinate. *)
Definition leading_zeros : list string := file_lines ["INCH,LZ"; "X1"]%string.

(** A parser in the DRILL phase that has not selected a tool. *)
Definition drilling_without_tool : ExcellonParser :=
  final (parse_lines decode ["M48"; "%"]%string (__init__ None)).

(** A parser in incremental notation whose cursor reads [(1, 0)]. *)
Definition incremental_at_1 : ExcellonParser :=
  final (parse_lines decode ["X010000"; "ICI,ON"]%string (__init__ None)).

(** ** [ExcellonFile.render] *)

(** Modelled from the spec: the drawing context given to [render] is an
    external collaborator.  It is represented by the calls made on it,
    oldest first: the calls a parser can make on a sink, and [dump]. *)
Inductive ContextCall : Type :=
| on_context (c : SinkCall)
| dump (filename : string).

(** The loop of [render] (lines 66-67).  The arguments of [drill] are
    evaluated before the call: [tool.diameter] raises on a hit whose tool
    is [None]. *)
Fixpoint render_hits (store : ExcellonParser) (hs : list Hit)
    (calls : list ContextCall) : Result unit * list ContextCall :=
  match hs with
  | [] => (Ok tt, calls)
  | (tool, pos) :: rest =>
      match tool with
      | None => (Raise AttributeError, calls)
      | Some a =>
          let xy := lists store !! pos in
          render_hits store rest (calls ++
            [on_context (drill (fst <$> xy) (snd <$> xy)
                               (heap store !! a ≫= ExcellonTool.diameter))])
      end
  end.

(** [ExcellonFile.render] (lines 63-68).  The objects the hits of the
    file refer to are read in [store], the parser that built the file. *)
Definition render (self : ExcellonFile) (store : ExcellonParser)
    (filename : string) (calls : list ContextCall)
    : Result unit * list ContextCall :=
  match render_hits store (file_hits self) calls with
  | (Ok _, calls') => (Ok tt, calls' ++ [dump filename])
  | (Raise e, calls') => (Raise e, calls')
  end.

(** *** More vocabulary *)

(** The diameter of the tool a hit refers to, read in the store of [p]. *)
Definition hit_diameter (p : ExcellonParser) (h : Hit) : option float :=
  match fst h with
  | Some a => heap p !! a ≫= ExcellonTool.diameter
  | None => None
  end.

(** [t'] is the tool object [t] after some more hits: the attributes the
    definition line gave it are the same, the hit count is not lower. *)
Definition tool_after (t t' : ExcellonTool.t) : Prop :=
  ExcellonTool.number t' = ExcellonTool.number t
  /\ ExcellonTool.feed_rate t' = ExcellonTool.feed_rate t
  /\ ExcellonTool.retract_rate t' = ExcellonTool.retract_rate t
  /\ ExcellonTool.rpm t' = ExcellonTool.rpm t
  /\ ExcellonTool.diameter t' = ExcellonTool.diameter t
  /\ ExcellonTool.max_hit_count t' = ExcellonTool.max_hit_count t
  /\ ExcellonTool.depth_offset t' = ExcellonTool.depth_offset t
  /\ ExcellonTool.units t' = ExcellonTool.units t
  /\ ExcellonTool.hit_count t <= ExcellonTool.hit_count t'.

(** The cursor right after each coordinate line of [lines] handled in the
    DRILL phase, when the lines are parsed from [p], in line order. *)
Fixpoint drill_cursors
    (parse_gerber_value : string -> nat * nat -> ZeroSuppression -> Result float)
    (lines : list string) (p : ExcellonParser) : list (option (float * float)) :=
  match lines with
  | [] => []
  | line :: rest =>
      let q := final (_parse parse_gerber_value line p) in
      (if drill_coordinate_line line p then [cursor q] else [])
      ++ drill_cursors parse_gerber_value rest q
  end.

(** The sink call [c] is a [drill] at the coordinates [cur]. *)
Definition drill_at (c : SinkCall) (cur : option (float * float)) : Prop :=
  exists d, c = drill (fst <$> cur) (snd <$> cur) d.

(** Every key of the tool table is a number. *)
Definition keys_are_numbers (p : ExcellonParser) : Prop :=
  forall k a, tools p !! k = Some a -> is_Some k.

(** The text of a list of commands of [from_line], written back. *)
Definition commands_text (commands : list (string * string)) : string :=
  foldr (fun cv rest => fst cv +:+ snd cv +:+ rest) EmptyString commands.

(** Every character of [s] satisfies [f]. *)
Fixpoint string_forall (f : ascii -> bool) (s : string) : bool :=
  match s with
  | EmptyString => true
  | String c s' => f c && string_forall f s'
  end.

(** The number of characters of [s] that satisfy [f]. *)
Fixpoint count_chars (f : ascii -> bool) (s : string) : nat :=
  match s with
  | EmptyString => 0%nat
  | String c s' => ((if f c then 1 else 0) + count_chars f s')%nat
  end.

(** A character of a coordinate value: neither [X], nor [Y], nor
    whitespace. *)
Definition value_char (c : ascii) : bool :=
  negb (Ascii.eqb c "X") && negb (Ascii.eqb c "Y") && negb (is_space c).

(** The line terminator. *)
Definition newline : string := String "010"%char EmptyString.

(** *** More sample inputs *)

(** A parser in the HEADER phase. *)
Definition in_header : ExcellonParser :=
  final (parse_lines decode (file_lines ["M48"%string]) (__init__ None)).

(** A parser that has left the header with tool 1 defined and no tool
    selected. *)
Definition with_tool_1 : ExcellonParser :=
  final (parse_lines decode (file_lines ["M48"; "T01"; "%"]%string) (__init__ None)).

(** ** Reasoning about computations *)

Arguments py_in : simpl never.
Arguments py_strip : simpl never.
Arguments py_strip_chars : simpl never.
Arguments py_split : simpl never.

(** Field [f] of the parser has the same value in [q] as in [p]. *)
Definition keeps {A : Type} (f : ExcellonParser -> A) (p q : ExcellonParser) : Prop :=
  f q = f p.

Lemma keeps_refl {A : Type} (f : ExcellonParser -> A) p : keeps f p p.
Proof. reflexivity. Qed.

Lemma keeps_trans {A : Type} (f : ExcellonParser -> A) p q r :
  keeps f p q -> keeps f q r -> keeps f p r.
Proof. unfold keeps. congruence. Qed.

Lemma bind_ok {A B : Type} (m : M A) (k : A -> M B) p a p' :
  m p = (Ok a, p') -> (m ≫= k) p = k a p'.
Proof. intros H. unfold mbind, M_bind. now rewrite H. Qed.

Lemma bind_raise {A B : Type} (m : M A) (k : A -> M B) p e p' :
  m p = (Raise e, p') -> (m ≫= k) p = (Raise e, p').
Proof. intros H. unfold mbind, M_bind. now rewrite H. Qed.

Lemma keeps_bind {A B C : Type} (f : ExcellonParser -> C) (m : M A) (k : A -> M B) p :
  keeps f p (final (m p)) ->
  (forall a p', keeps f p' (final (k a p'))) ->
  keeps f p (final ((m ≫= k) p)).
Proof.
  intros Hm Hk. unfold mbind, M_bind.
  destruct (m p) as [[a|e] p'] eqn:E; simpl in Hm.
  - eapply keeps_trans; [exact Hm | apply Hk].
  - exact Hm.
Qed.

(** Splits a goal [keeps f p (final (c p))] along the structure of the
    computation [c]; the leaves are assignments, solved by computation. *)
Ltac keeps_step :=
  match goal with
  | |- keeps _ _ (final (mbind _ _ _)) => apply keeps_bind; [ | intros ]
  | |- keeps _ _ (final (when ?b _ _)) => destruct b; unfold when
  | |- keeps _ _ (final ((if ?b then _ else _) _)) => destruct b
  | |- keeps _ _ (final (match ?x with _ => _ end _)) => destruct x
  | |- keeps _ _ (final _) => reflexivity
  end.
Ltac keeps_tac := repeat keeps_step.

Section ParserFacts.

Variable parse_gerber_value :
  string -> nat * nat -> ZeroSuppression -> Result float.

Local Abbreviation from_line := (from_line parse_gerber_value).
Local Abbreviation parse_tool := (parse_tool parse_gerber_value).
Local Abbreviation axis_values := (axis_values parse_gerber_value).
Local Abbreviation parse_coordinate := (parse_coordinate parse_gerber_value).
Local Abbreviation _parse := (_parse parse_gerber_value).
Local Abbreviation parse_lines := (parse_lines parse_gerber_value).
Local Abbreviation parse := (parse parse_gerber_value).
Local Abbreviation read := (read parse_gerber_value).
Local Abbreviation drill_tools := (drill_tools parse_gerber_value).

(** *** Lines 202-230 *)

Lemma parse_state_returns line c p :
  getitem0 line = Ok c -> parse_state line p = (Ok tt, final (parse_state line p)).
Proof.
  intros Hc. unfold parse_state, mbind, M_bind, when, modify, lift, get, mret, M_ret.
  rewrite Hc.
  destruct (py_in "M48" line), (py_in "G00" line), (py_in "G05" line);
    simpl; try destruct (_ && _); reflexivity.
Qed.

Lemma parse_units_returns line p :
  parse_units line p = (Ok tt, final (parse_units line p)).
Proof.
  unfold parse_units, when, modify, mret, M_ret.
  destruct (_ || _); [reflexivity|]. destruct (_ || _); reflexivity.
Qed.

Lemma parse_zeros_returns line p :
  parse_zeros line p = (Ok tt, final (parse_zeros line p)).
Proof.
  unfold parse_zeros, when, modify, mret, M_ret.
  destruct (py_in "LZ" line); [reflexivity|]. destruct (py_in "TZ" line); reflexivity.
Qed.

Lemma parse_notation_returns line p :
  parse_notation line p = (Ok tt, final (parse_notation line p)).
Proof.
  unfold parse_notation, mbind, M_bind, when, modify, mret, M_ret.
  destruct (_ || _), (_ || _); reflexivity.
Qed.

Lemma directives_returns line c p :
  getitem0 line = Ok c -> directives line p = (Ok tt, final (directives line p)).
Proof.
  intros Hc. unfold directives.
  rewrite (bind_ok _ _ _ _ _ (parse_state_returns line c p Hc)).
  rewrite (bind_ok _ _ _ _ _ (parse_units_returns line _)).
  rewrite (bind_ok _ _ _ _ _ (parse_zeros_returns line _)).
  apply parse_notation_returns.
Qed.

Lemma directives_empty p : directives "" p = (Raise IndexError, p).
Proof. reflexivity. Qed.

(** The directives leave everything but [state], [units], [zeros] and
    [notation] alone. *)
Lemma directives_keeps_hits line p : keeps hits p (final (directives line p)).
Proof. unfold directives, parse_state, parse_units, parse_zeros, parse_notation. keeps_tac. Qed.

Lemma directives_keeps_heap line p : keeps heap p (final (directives line p)).
Proof. unfold directives, parse_state, parse_units, parse_zeros, parse_notation. keeps_tac. Qed.

Lemma directives_keeps_tools line p : keeps tools p (final (directives line p)).
Proof. unfold directives, parse_state, parse_units, parse_zeros, parse_notation. keeps_tac. Qed.

Lemma directives_keeps_active_tool line p :
  keeps active_tool p (final (directives line p)).
Proof. unfold directives, parse_state, parse_units, parse_zeros, parse_notation. keeps_tac. Qed.

Lemma directives_keeps_pos line p : keeps pos p (final (directives line p)).
Proof. unfold directives, parse_state, parse_units, parse_zeros, parse_notation. keeps_tac. Qed.

Lemma directives_keeps_lists line p : keeps lists p (final (directives line p)).
Proof. unfold directives, parse_state, parse_units, parse_zeros, parse_notation. keeps_tac. Qed.

Lemma directives_keeps_cursor line p : cursor (final (directives line p)) = cursor p.
Proof.
  unfold cursor. now rewrite (directives_keeps_pos line p), (directives_keeps_lists line p).
Qed.

Lemma directives_keeps_ctx line p : keeps ctx p (final (directives line p)).
Proof. unfold directives, parse_state, parse_units, parse_zeros, parse_notation. keeps_tac. Qed.

Lemma directives_keeps_zero_suppression line p :
  keeps zero_suppression p (final (directives line p)).
Proof. unfold directives, parse_state, parse_units, parse_zeros, parse_notation. keeps_tac. Qed.

Lemma directives_keeps_format line p : keeps format p (final (directives line p)).
Proof. unfold directives, parse_state, parse_units, parse_zeros, parse_notation. keeps_tac. Qed.

Lemma directives_final line c p :
  getitem0 line = Ok c ->
  final (directives line p)
  = final (parse_notation line (final (parse_zeros line
      (final (parse_units line (final (parse_state line p))))))).
Proof.
  intros Hc. unfold directives.
  rewrite (bind_ok _ _ _ _ _ (parse_state_returns line c p Hc)).
  rewrite (bind_ok _ _ _ _ _ (parse_units_returns line _)).
  rewrite (bind_ok _ _ _ _ _ (parse_zeros_returns line _)).
  reflexivity.
Qed.

Lemma parse_notation_incremental line q :
  (py_in "ICI" line && py_in "ON" line || String.eqb (py_strip line) "G91"
   || (py_in "ICI" line && py_in "OFF" line || String.eqb (py_strip line) "G90")) = true ->
  notation (final (parse_notation line q)) = incremental.
Proof.
  unfold parse_notation, mbind, M_bind, when, modify, mret, M_ret.
  destruct (_ && _ || _), (_ && _ || _); simpl; try reflexivity; discriminate.
Qed.

Lemma directive_line_nonempty line :
  (py_in "ICI" line && py_in "ON" line || String.eqb (py_strip line) "G91"
   || (py_in "ICI" line && py_in "OFF" line || String.eqb (py_strip line) "G90")) = true ->
  exists c, getitem0 line = Ok c.
Proof.
  destruct line as [|c line]; [discriminate|]. intros _. now exists c.
Qed.

(** The phase in which a line is handled is the phase before it unless
    the line carries a marker: a parser that is drilling handles a line
    without [M48] and [G00] in the DRILL phase. *)
Lemma directives_state_DRILL line c p :
  getitem0 line = Ok c ->
  state p = DRILL ->
  py_in "M48" line = false -> py_in "G00" line = false ->
  state (final (directives line p)) = DRILL.
Proof.
  intros Hc Hst H48 H00. rewrite (directives_final line c p Hc).
  assert (Hs : state (final (parse_state line p)) = DRILL).
  { unfold parse_state, mbind, M_bind, when, modify, lift, get, mret, M_ret.
    rewrite Hc, H48, H00. simpl.
    destruct (py_in "G05" line); [reflexivity|].
    simpl. destruct (_ && _); [reflexivity | exact Hst]. }
  rewrite <- Hs. set (q := final (parse_state line p)).
  apply (keeps_trans state q (final (parse_units line q))).
  { unfold parse_units. keeps_tac. }
  apply (keeps_trans state _ (final (parse_zeros line (final (parse_units line q))))).
  { unfold parse_zeros. keeps_tac. }
  unfold parse_notation. keeps_tac.
Qed.

(** *** Lines 232-241 *)

Lemma parse_tool_other line c q :
  getitem0 line = Ok c -> c <> "T"%char -> parse_tool line q = (Ok tt, q).
Proof.
  intros Hc Hne. unfold parse_tool, mbind, M_bind, lift, get. rewrite Hc.
  apply Ascii.eqb_neq in Hne. rewrite Hne. reflexivity.
Qed.

Lemma parse_tool_unknown line q n :
  getitem0 line = Ok "T"%char ->
  state q <> HEADER ->
  selected_tool_number line = Ok n ->
  tools q !! Some n = None ->
  parse_tool line q = (Raise (KeyError (Some n)), q).
Proof.
  intros Hc Hst Hn Hk. unfold parse_tool, mbind, M_bind, lift, get, raise.
  rewrite Hc. simpl. rewrite (bool_decide_eq_false_2 _ Hst). simpl.
  rewrite Hn, Hk. reflexivity.
Qed.

(** *** Lines 243-268 *)

Lemma parse_coordinate_other line c fmt zs q :
  getitem0 line = Ok c -> c <> "X"%char -> c <> "Y"%char ->
  parse_coordinate line fmt zs q = (Ok tt, q).
Proof.
  intros Hc Hx Hy. unfold parse_coordinate, mbind, M_bind, lift. rewrite Hc.
  apply Ascii.eqb_neq in Hx, Hy. rewrite Hx, Hy. reflexivity.
Qed.

Lemma parse_coordinate_raise line c fmt zs q e :
  getitem0 line = Ok c -> c = "X"%char \/ c = "Y"%char ->
  axis_values line fmt zs = Raise e ->
  parse_coordinate line fmt zs q = (Raise e, q).
Proof.
  intros Hc Hxy He. unfold parse_coordinate, mbind, M_bind, lift, when. rewrite Hc.
  assert (Ascii.eqb c "X" || Ascii.eqb c "Y" = true) as ->.
  { destruct Hxy as [-> | ->]; reflexivity. }
  rewrite He. reflexivity.
Qed.

Lemma parse_coordinate_move line c fmt zs q x y :
  getitem0 line = Ok c -> c = "X"%char \/ c = "Y"%char ->
  axis_values line fmt zs = Ok (x, y) ->
  parse_coordinate line fmt zs q
  = let q' := set_lists (alter (move (notation q) x y) (pos q) (lists q)) q in
    if bool_decide (state q = DRILL) then record_hit q' else (Ok tt, q').
Proof.
  intros Hc Hxy He. unfold parse_coordinate, mbind, M_bind, lift, when, get, modify.
  rewrite Hc.
  assert (Ascii.eqb c "X" || Ascii.eqb c "Y" = true) as ->.
  { destruct Hxy as [-> | ->]; reflexivity. }
  rewrite He. simpl. destruct (bool_decide (state q = DRILL)); reflexivity.
Qed.

Lemma record_hit_none q :
  active_tool q = None ->
  record_hit q = (Raise AttributeError, set_hits (hits q ++ [(None, pos q)]) q).
Proof.
  intros Ha. unfold record_hit, mbind, M_bind, get, modify, raise. simpl.
  rewrite Ha. reflexivity.
Qed.

Lemma record_hit_some q a :
  active_tool q = Some a ->
  exists q', record_hit q = (Ok tt, q')
    /\ hits q' = hits q ++ [(Some a, pos q)]
    /\ heap q' = alter ExcellonTool._hit a (heap q)
    /\ pos q' = pos q /\ lists q' = lists q
    /\ tools q' = tools q /\ active_tool q' = active_tool q.
Proof.
  intros Ha. unfold record_hit, mbind, M_bind, get, modify, mret, M_ret. simpl.
  rewrite Ha. simpl.
  destruct (ctx q); simpl; eexists; (split; [reflexivity|]); simpl; repeat split; exact Ha.
Qed.

(** *** The whole of [_parse] *)

Lemma _parse_eq line c p :
  getitem0 line = Ok c ->
  _parse line p
  = (parse_tool line;; parse_coordinate line (format p) (zero_suppression p))
      (final (directives line p)).
Proof.
  intros Hc. unfold _parse.
  rewrite (bind_ok _ _ _ _ _ (directives_returns line c p Hc)).
  unfold get at 1 2. unfold mbind at 1 2. unfold M_bind at 1 2. simpl.
  rewrite (directives_keeps_format line p), (directives_keeps_zero_suppression line p).
  reflexivity.
Qed.

Lemma _parse_empty p : _parse "" p = (Raise IndexError, p).
Proof. reflexivity. Qed.

(** A coordinate line: the tool block does nothing. *)
Lemma _parse_coordinate_line line c p :
  getitem0 line = Ok c -> c = "X"%char \/ c = "Y"%char ->
  _parse line p
  = parse_coordinate line (format p) (zero_suppression p) (final (directives line p)).
Proof.
  intros Hc Hxy. rewrite (_parse_eq line c p Hc).
  assert (Hne : c <> "T"%char) by (destruct Hxy as [-> | ->]; discriminate).
  now rewrite (bind_ok _ _ _ tt _ (parse_tool_other line c _ Hc Hne)).
Qed.

(** Any other line: the coordinate block does nothing. *)
Lemma _parse_tool_line line c p :
  getitem0 line = Ok c -> c <> "X"%char -> c <> "Y"%char ->
  _parse line p = parse_tool line (final (directives line p)).
Proof.
  intros Hc Hx Hy. rewrite (_parse_eq line c p Hc).
  unfold mbind, M_bind.
  destruct (parse_tool line (final (directives line p))) as [[[]|e] q]; [|reflexivity].
  apply (parse_coordinate_other line c); assumption.
Qed.

(** What the tool block and the coordinate block leave alone. *)
Lemma parse_tool_keeps_notation line q : keeps notation q (final (parse_tool line q)).
Proof. unfold parse_tool. keeps_tac. Qed.

Lemma parse_tool_keeps_zero_suppression line q :
  keeps zero_suppression q (final (parse_tool line q)).
Proof. unfold parse_tool. keeps_tac. Qed.

Lemma parse_tool_keeps_state line q : keeps state q (final (parse_tool line q)).
Proof. unfold parse_tool. keeps_tac. Qed.

Lemma parse_tool_keeps_hits line q : keeps hits q (final (parse_tool line q)).
Proof. unfold parse_tool. keeps_tac. Qed.

Lemma parse_tool_keeps_pos line q : keeps pos q (final (parse_tool line q)).
Proof. unfold parse_tool. keeps_tac. Qed.

Lemma parse_tool_keeps_lists line q : keeps lists q (final (parse_tool line q)).
Proof. unfold parse_tool. keeps_tac. Qed.

Lemma parse_coordinate_keeps_pos line fmt zs q :
  keeps pos q (final (parse_coordinate line fmt zs q)).
Proof. unfold parse_coordinate, record_hit. keeps_tac. Qed.

Lemma parse_coordinate_keeps_notation line fmt zs q :
  keeps notation q (final (parse_coordinate line fmt zs q)).
Proof. unfold parse_coordinate, record_hit. keeps_tac. Qed.

Lemma parse_coordinate_keeps_zero_suppression line fmt zs q :
  keeps zero_suppression q (final (parse_coordinate line fmt zs q)).
Proof. unfold parse_coordinate, record_hit. keeps_tac. Qed.

Lemma parse_coordinate_keeps_state line fmt zs q :
  keeps state q (final (parse_coordinate line fmt zs q)).
Proof. unfold parse_coordinate, record_hit. keeps_tac. Qed.

Lemma parse_coordinate_keeps_tools line fmt zs q :
  keeps tools q (final (parse_coordinate line fmt zs q)).
Proof. unfold parse_coordinate, record_hit. keeps_tac. Qed.

Lemma parse_coordinate_keeps_active_tool line fmt zs q :
  keeps active_tool q (final (parse_coordinate line fmt zs q)).
Proof. unfold parse_coordinate, record_hit. keeps_tac. Qed.

(** A field that neither block assigns has, after [_parse], the value the
    directives gave it. *)
Lemma _parse_after_directives {A : Type} (f : ExcellonParser -> A) line p :
  (forall q, keeps f q (final (parse_tool line q))) ->
  (forall fmt zs q, keeps f q (final (parse_coordinate line fmt zs q))) ->
  f (final (_parse line p)) = f (final (directives line p)).
Proof.
  intros Ht Hc. destruct line as [|c line]; [reflexivity|].
  rewrite (_parse_eq _ c) by reflexivity.
  apply (keeps_bind f (parse_tool (String c line))); [apply Ht | intros; apply Hc].
Qed.

Lemma _parse_notation line p :
  notation (final (_parse line p)) = notation (final (directives line p)).
Proof.
  apply _parse_after_directives;
    auto using parse_tool_keeps_notation, parse_coordinate_keeps_notation.
Qed.

Lemma _parse_state line p :
  state (final (_parse line p)) = state (final (directives line p)).
Proof.
  apply _parse_after_directives;
    auto using parse_tool_keeps_state, parse_coordinate_keeps_state.
Qed.

(** [self.pos] refers to the same list throughout. *)
Lemma _parse_pos line p : pos (final (_parse line p)) = pos p.
Proof.
  rewrite (_parse_after_directives pos);
    auto using parse_tool_keeps_pos, parse_coordinate_keeps_pos.
  apply directives_keeps_pos.
Qed.

(** No line changes [self.zero_suppression]: nothing in [_parse] assigns
    it. *)
Lemma _parse_zero_suppression line p :
  zero_suppression (final (_parse line p)) = zero_suppression p.
Proof.
  rewrite (_parse_after_directives zero_suppression);
    auto using parse_tool_keeps_zero_suppression, parse_coordinate_keeps_zero_suppression.
  apply directives_keeps_zero_suppression.
Qed.

(** C3: a line carrying either form of the incremental-notation
    directive -- [ICI] with [ON], [ICI] with [OFF], or a line that is
    [G91] or [G90] -- leaves the parser's notation incremental, whatever
    it was before and however the rest of the line is handled; so the
    off form never sets it back to absolute. *)
Theorem incremental_directive_sets_incremental (p : ExcellonParser) (line : string) :
  (py_in "ICI" line && py_in "ON" line || String.eqb (py_strip line) "G91"
   || (py_in "ICI" line && py_in "OFF" line || String.eqb (py_strip line) "G90")) = true ->
  notation (final (_parse line p)) = incremental.
Proof.
  intros H. rewrite _parse_notation.
  destruct (directive_line_nonempty line H) as [c Hc].
  rewrite (directives_final line c p Hc).
  now apply parse_notation_incremental.
Qed.

(** C4: a coordinate line (first character [X] or [Y]) handled in the
    DRILL phase while no tool is active does not complete normally; when
    its axis values decode, the error is the [AttributeError] of calling
    [_hit] on [None]. *)
Theorem drill_without_active_tool_fails (p : ExcellonParser) (line : string) (c : ascii) :
  getitem0 line = Ok c ->
  c = "X"%char \/ c = "Y"%char ->
  state (final (directives line p)) = DRILL ->
  active_tool p = None ->
  ~ returns (_parse line p) /\
  (forall xy, axis_values line (format p) (zero_suppression p) = Ok xy ->
              fst (_parse line p) = Raise AttributeError).
Proof.
  intros Hc Hxy Hst Ha.
  rewrite (_parse_coordinate_line line c p Hc Hxy).
  set (q := final (directives line p)) in *.
  assert (Haq : active_tool q = None) by (rewrite <- Ha; apply directives_keeps_active_tool).
  destruct (axis_values line (format p) (zero_suppression p)) as [[x y]|e] eqn:E.
  - rewrite (parse_coordinate_move line c _ _ q x y Hc Hxy E). simpl.
    rewrite (bool_decide_eq_true_2 _ Hst).
    rewrite record_hit_none by exact Haq.
    split; [intros [a Hr]; discriminate | reflexivity].
  - rewrite (parse_coordinate_raise line c _ _ q e Hc Hxy E).
    split; [intros [a Hr]; discriminate | intros xy Hxy'; discriminate].
Qed.

(** C5: a tool-selection line (first character [T], phase not HEADER)
    whose tool number is not a key of the tool table raises [KeyError]
    for that number, and the active tool stays what it was. *)
Theorem unknown_tool_selection_fails (p : ExcellonParser) (line : string) (n : Z) :
  getitem0 line = Ok "T"%char ->
  state (final (directives line p)) <> HEADER ->
  selected_tool_number line = Ok n ->
  tools p !! Some n = None ->
  fst (_parse line p) = Raise (KeyError (Some n)) /\
  active_tool (final (_parse line p)) = active_tool p.
Proof.
  intros Hc Hst Hn Hk.
  rewrite (_parse_tool_line line "T" p Hc) by discriminate.
  set (q := final (directives line p)) in *.
  assert (Hkq : tools q !! Some n = None) by (rewrite <- Hk; f_equal; apply directives_keeps_tools).
  rewrite (parse_tool_unknown line q n Hc Hst Hn Hkq). simpl.
  split; [reflexivity | apply directives_keeps_active_tool].
Qed.

(** The cursor after the coordinate block: the list [self.pos] refers
    to has been assigned, whether or not a hit follows. *)
Lemma parse_coordinate_cursor line c fmt zs q x y :
  getitem0 line = Ok c -> c = "X"%char \/ c = "Y"%char ->
  axis_values line fmt zs = Ok (x, y) ->
  cursor (final (parse_coordinate line fmt zs q)) = move (notation q) x y <$> cursor q.
Proof.
  intros Hc Hxy E. rewrite (parse_coordinate_move line c _ _ q x y Hc Hxy E). simpl.
  set (q' := set_lists _ q).
  assert (Hq' : cursor q' = move (notation q) x y <$> cursor q)
    by apply list_lookup_alter_eq.
  destruct (bool_decide (state q = DRILL)); [|exact Hq'].
  destruct (active_tool q') as [a|] eqn:Ha.
  - destruct (record_hit_some q' a Ha) as (q'' & -> & _ & _ & Hpos & Hl & _).
    unfold cursor in *. simpl. now rewrite Hpos, Hl.
  - rewrite (record_hit_none q' Ha). exact Hq'.
Qed.

(** C7: on a coordinate line whose axis values decode to [x] and [y]
    (each present or absent), with the cursor at [(cx, cy)], the cursor
    afterwards is: in absolute notation, each present value in place of
    its component; in incremental notation, each present value added to
    its component; an absent axis keeps its component in both. *)
Theorem coordinate_line_moves_cursor (p : ExcellonParser) (line : string) (c : ascii)
    (x y : option float) (cx cy : float) :
  getitem0 line = Ok c ->
  c = "X"%char \/ c = "Y"%char ->
  axis_values line (format p) (zero_suppression p) = Ok (x, y) ->
  cursor p = Some (cx, cy) ->
  let n := notation (final (directives line p)) in
  let q := final (_parse line p) in
  (n = absolute ->
     cursor q = Some (match x with Some v => v | None => cx end,
                      match y with Some v => v | None => cy end)) /\
  (n = incremental ->
     cursor q = Some (match x with Some v => PrimFloat.add cx v | None => cx end,
                      match y with Some v => PrimFloat.add cy v | None => cy end)).
Proof.
  intros Hc Hxy E Hcur n q. subst q.
  rewrite (_parse_coordinate_line line c p Hc Hxy).
  rewrite (parse_coordinate_cursor line c _ _ _ x y Hc Hxy E).
  rewrite directives_keeps_cursor, Hcur. fold n. simpl.
  split; intros ->; reflexivity.
Qed.

(** C9: when a DRILL-phase coordinate line whose axis values decode
    fails for want of an active tool, the parser object has already been
    changed: the cursor has moved and a hit with a null tool reference
    has been appended. *)
Theorem no_active_tool_failure_not_atomic (p : ExcellonParser) (line : string)
    (c : ascii) (x y : option float) :
  getitem0 line = Ok c ->
  c = "X"%char \/ c = "Y"%char ->
  state (final (directives line p)) = DRILL ->
  active_tool p = None ->
  axis_values line (format p) (zero_suppression p) = Ok (x, y) ->
  fst (_parse line p) = Raise AttributeError /\
  cursor (final (_parse line p))
  = move (notation (final (directives line p))) x y <$> cursor p /\
  hits (final (_parse line p)) = hits p ++ [(None, pos p)].
Proof.
  intros Hc Hxy Hst Ha E.
  rewrite (_parse_coordinate_line line c p Hc Hxy).
  split; [|split].
  - rewrite (parse_coordinate_move line c _ _ _ x y Hc Hxy E). simpl.
    rewrite (bool_decide_eq_true_2 _ Hst), record_hit_none; [reflexivity|].
    simpl. rewrite <- Ha. apply directives_keeps_active_tool.
  - rewrite (parse_coordinate_cursor line c _ _ _ x y Hc Hxy E).
    now rewrite directives_keeps_cursor.
  - rewrite (parse_coordinate_move line c _ _ _ x y Hc Hxy E). simpl.
    rewrite (bool_decide_eq_true_2 _ Hst), record_hit_none.
    + simpl. now rewrite (directives_keeps_pos line p), (directives_keeps_hits line p).
    + simpl. rewrite <- Ha. apply directives_keeps_active_tool.
Qed.

(** C10: a coordinate line handled in a phase other than DRILL leaves
    the hit sequence, the tool objects (so every hit count), the tool
    table and the active tool as they were; when its axis values decode
    it returns, with the cursor moved according to the notation. *)
Theorem coordinate_outside_drill_only_moves (p : ExcellonParser) (line : string)
    (c : ascii) :
  getitem0 line = Ok c ->
  c = "X"%char \/ c = "Y"%char ->
  state (final (directives line p)) <> DRILL ->
  let q := final (_parse line p) in
  hits q = hits p /\ heap q = heap p /\ tools q = tools p /\
  active_tool q = active_tool p /\
  (forall x y, axis_values line (format p) (zero_suppression p) = Ok (x, y) ->
     fst (_parse line p) = Ok tt /\
     cursor q = move (notation (final (directives line p))) x y <$> cursor p).
Proof.
  intros Hc Hxy Hst q. subst q.
  rewrite (_parse_coordinate_line line c p Hc Hxy).
  set (d := final (directives line p)) in *.
  pose proof (directives_keeps_hits line p) as Hh.
  pose proof (directives_keeps_heap line p) as Hp.
  pose proof (directives_keeps_tools line p) as Ht.
  pose proof (directives_keeps_active_tool line p) as Ha.
  pose proof (directives_keeps_cursor line p) as Hcur.
  unfold keeps in *. fold d in Hh, Hp, Ht, Ha, Hcur.
  destruct (axis_values line (format p) (zero_suppression p)) as [[x y]|e] eqn:E.
  - rewrite (parse_coordinate_move line c _ _ d x y Hc Hxy E). simpl.
    rewrite (bool_decide_eq_false_2 _ Hst). simpl.
    split_and!; try assumption. intros x' y' [= <- <-]. split; [reflexivity|].
    rewrite <- Hcur. apply list_lookup_alter_eq.
  - rewrite (parse_coordinate_raise line c _ _ d e Hc Hxy E). simpl.
    split_and!; try assumption. intros x' y' [=].
Qed.

(** *** The sink has no say *)
















(** *** Hits and hit counts *)

Lemma hits_of_app a hs hs' : hits_of a (hs ++ hs') = (hits_of a hs + hits_of a hs')%nat.
Proof. unfold hits_of. now rewrite filter_app, length_app. Qed.

Lemma hits_of_one a (h : Hit) :
  hits_of a [h] = if decide (fst h = Some a) then 1%nat else 0%nat.
Proof.
  unfold hits_of. rewrite filter_cons, filter_nil. now destruct (decide (fst h = Some a)).
Qed.

Lemma hits_of_none a (hs : list Hit) :
  (forall h, h ∈ hs -> fst h <> Some a) -> hits_of a hs = 0%nat.
Proof.
  unfold hits_of. induction hs as [|h hs IH]; intros H; [reflexivity|].
  rewrite filter_cons_False by (apply H; left).
  apply IH. intros h' Hin. apply H. now right.
Qed.

Lemma consistent_alloc hs hp ts act k tool :
  consistent_parts hs hp ts act ->
  ExcellonTool.hit_count tool = 0 ->
  consistent_parts hs (hp ++ [tool]) (<[k := length hp]> ts) act.
Proof.
  intros (Hcount & Hact & Htab & Hhits) H0.
  unfold consistent_parts. rewrite length_app. simpl. split_and!.
  - intros a t Hl. apply lookup_app_Some in Hl as [Hl | [Hge Hl]]; [now apply Hcount|].
    apply list_lookup_singleton_Some in Hl as [_ <-].
    rewrite H0, hits_of_none; [reflexivity|].
    intros h Hin Hh. specialize (Hhits h a Hin Hh). lia.
  - intros a Ha. specialize (Hact a Ha). lia.
  - intros k' a Hl. apply lookup_insert_Some in Hl as [[_ <-] | [_ Hl]]; [lia|].
    specialize (Htab k' a Hl). lia.
  - intros h a Hin Hh. specialize (Hhits h a Hin Hh). lia.
Qed.

Lemma consistent_select hs hp ts act k a :
  consistent_parts hs hp ts act -> ts !! k = Some a ->
  consistent_parts hs hp ts (Some a).
Proof.
  intros (Hcount & Hact & Htab & Hhits) Hk. split_and!; try assumption.
  intros a' [= <-]. eauto.
Qed.

Lemma consistent_hit_none hs hp ts act r :
  consistent_parts hs hp ts act ->
  consistent_parts (hs ++ [(None, r)]) hp ts act.
Proof.
  intros (Hcount & Hact & Htab & Hhits). split_and!; try assumption.
  - intros a t Hl. rewrite hits_of_app, hits_of_one.
    destruct (decide _) as [Heq|_]; [simpl in Heq; discriminate|].
    rewrite Nat.add_0_r. eauto.
  - intros h a Hin Hh. apply elem_of_app in Hin as [Hin | Hin]; [eauto|].
    apply list_elem_of_singleton in Hin as ->. discriminate.
Qed.

Lemma consistent_hit_some hs hp ts a r :
  consistent_parts hs hp ts (Some a) ->
  consistent_parts (hs ++ [(Some a, r)]) (alter ExcellonTool._hit a hp) ts (Some a).
Proof.
  intros (Hcount & Hact & Htab & Hhits).
  unfold consistent_parts. rewrite length_alter. split_and!; try assumption.
  - intros a' t Hl. rewrite hits_of_app, hits_of_one.
    destruct (decide (a = a')) as [<- | Hne];
      [rewrite list_lookup_alter_eq in Hl | rewrite list_lookup_alter_ne in Hl by exact Hne].
    + apply fmap_Some in Hl as (t0 & E & ->).
      destruct (decide _) as [_|Hneq]; [|now elim Hneq]. simpl.
      rewrite (Hcount a t0 E). lia.
    + destruct (decide _) as [Heq|_]; [simpl in Heq; congruence|].
      rewrite Nat.add_0_r. eauto.
  - intros h a' Hin Hh. apply elem_of_app in Hin as [Hin | Hin]; [eauto|].
    apply list_elem_of_singleton in Hin as ->. injection Hh as <-. now apply Hact.
Qed.

Lemma from_line_hit_count line settings tool :
  from_line line settings = Ok tool -> ExcellonTool.hit_count tool = 0.
Proof.
  unfold from_line, mbind, Result_bind, rbind.
  destruct (from_line_loop _ _ _ _ _); [|discriminate]. now intros [= <-].
Qed.

Lemma directives_consistent line p : consistent p -> consistent (final (directives line p)).
Proof.
  unfold consistent.
  now rewrite (directives_keeps_hits line p), (directives_keeps_heap line p),
    (directives_keeps_tools line p), (directives_keeps_active_tool line p).
Qed.

Lemma parse_tool_consistent line q : consistent q -> consistent (final (parse_tool line q)).
Proof.
  intros Hq. unfold parse_tool, mbind, M_bind, lift, get, modify, raise.
  destruct (getitem0 line) as [c|e]; [|exact Hq].
  destruct (Ascii.eqb c "T" && bool_decide (state q = HEADER)).
  - destruct (from_line line (_settings q)) as [tool|e] eqn:E; [|exact Hq].
    simpl. apply consistent_alloc; [exact Hq|]. exact (from_line_hit_count _ _ _ E).
  - destruct (Ascii.eqb c "T" && negb (bool_decide (state q = HEADER))); [|exact Hq].
    destruct (selected_tool_number line) as [n|e]; [|exact Hq].
    destruct (tools q !! Some n) as [a|] eqn:E; [|exact Hq].
    exact (consistent_select _ _ _ _ _ _ Hq E).
Qed.

Lemma record_hit_consistent q : consistent q -> consistent (final (record_hit q)).
Proof.
  intros Hq. destruct (active_tool q) as [a|] eqn:Ha.
  - destruct (record_hit_some q a Ha) as (q' & -> & Hh & Hp & _ & _ & Ht & Hact).
    unfold consistent. simpl. rewrite Hh, Hp, Ht, Hact, Ha.
    apply consistent_hit_some. unfold consistent in Hq. now rewrite Ha in Hq.
  - rewrite (record_hit_none q Ha). now apply consistent_hit_none.
Qed.

Lemma parse_coordinate_consistent line fmt zs q :
  consistent q -> consistent (final (parse_coordinate line fmt zs q)).
Proof.
  intros Hq. unfold parse_coordinate, mbind, M_bind, lift, get, modify, when.
  destruct (getitem0 line) as [c|e]; [|exact Hq].
  destruct (Ascii.eqb c "X" || Ascii.eqb c "Y"); [|exact Hq].
  destruct (axis_values line fmt zs) as [[x y]|e]; [|exact Hq].
  simpl. destruct (bool_decide (state q = DRILL)); [|exact Hq].
  now apply record_hit_consistent.
Qed.

Lemma _parse_consistent line p : consistent p -> consistent (final (_parse line p)).
Proof.
  intros Hp. destruct line as [|c line]; [exact Hp|].
  rewrite (_parse_eq _ c) by reflexivity.
  apply directives_consistent with (line := String c line) in Hp.
  apply parse_tool_consistent with (line := String c line) in Hp.
  unfold mbind, M_bind.
  destruct (parse_tool _ _) as [[[]|e] q]; [|exact Hp].
  now apply parse_coordinate_consistent.
Qed.

Lemma parse_lines_consistent lines p :
  consistent p -> consistent (final (parse_lines lines p)).
Proof.
  revert p. induction lines as [|line rest IH]; intros p Hp; [exact Hp|].
  simpl. unfold mbind, M_bind.
  pose proof (_parse_consistent line p Hp) as Hq.
  destruct (_parse line p) as [[[]|e] q]; [|exact Hq].
  now apply IH.
Qed.

Lemma __init___consistent ctx : consistent (__init__ ctx).
Proof.
  unfold consistent, consistent_parts. simpl. split_and!.
  - intros a t [=].
  - intros a [=].
  - intros k a Hl. now rewrite lookup_empty in Hl.
  - intros h a Hin. now apply elem_of_nil in Hin.
Qed.

(** One line that returns: nothing is appended to the hits unless it is a
    coordinate line in the DRILL phase, and then the hit refers to the
    active tool, which exists. *)
Lemma _parse_hits line p q :
  _parse line p = (Ok tt, q) ->
  hits q = hits p ++ (if drill_coordinate_line line p then [(active_tool p, pos p)] else [])
  /\ (drill_coordinate_line line p = true -> is_Some (active_tool p)).
Proof.
  intros Hrun. unfold drill_coordinate_line.
  destruct (getitem0 line) as [c|e] eqn:Hc.
  2:{ destruct line; [discriminate Hrun | discriminate Hc]. }
  destruct (Ascii.eqb c "X" || Ascii.eqb c "Y") eqn:Hxy.
  - assert (Hxy' : c = "X"%char \/ c = "Y"%char).
    { apply orb_true_iff in Hxy as [H|H]; apply Ascii.eqb_eq in H; auto. }
    rewrite (_parse_coordinate_line line c p Hc Hxy') in Hrun.
    pose proof (directives_keeps_hits line p) as Hh.
    pose proof (directives_keeps_active_tool line p) as Ha.
    pose proof (directives_keeps_pos line p) as Hr.
    unfold keeps in Hh, Ha, Hr.
    destruct (axis_values line (format p) (zero_suppression p)) as [[x y]|e] eqn:E.
    2:{ rewrite (parse_coordinate_raise line c _ _ _ e Hc Hxy' E) in Hrun. discriminate. }
    rewrite (parse_coordinate_move line c _ _ _ x y Hc Hxy' E) in Hrun.
    simpl in *. destruct (bool_decide (state (final (directives line p)) = DRILL)).
    + destruct (active_tool p) as [a|] eqn:Hact.
      * destruct (record_hit_some (set_lists (alter
                     (move (notation (final (directives line p))) x y)
                     (pos (final (directives line p))) (lists (final (directives line p))))
                     (final (directives line p))) a Ha)
          as (q' & Hq' & Hhits & _).
        rewrite Hq' in Hrun. injection Hrun as <-.
        rewrite Hhits. simpl. rewrite Hh, Hr. split; [reflexivity | eauto].
      * rewrite record_hit_none in Hrun by exact Ha. discriminate.
    + injection Hrun as <-. simpl. rewrite Hh, app_nil_r. split; [reflexivity | discriminate].
  - apply orb_false_iff in Hxy as [Hx Hy]. apply Ascii.eqb_neq in Hx, Hy.
    rewrite (_parse_tool_line line c p Hc Hx Hy) in Hrun.
    pose proof (parse_tool_keeps_hits line (final (directives line p))) as Hh.
    rewrite Hrun in Hh. unfold keeps in Hh. simpl in Hh.
    rewrite Hh, (directives_keeps_hits line p), app_nil_r.
    split; [reflexivity | discriminate].
Qed.

Lemma parse_lines_hits lines p q :
  parse_lines lines p = (Ok tt, q) ->
  hits q = hits p ++ map (fun a => (a, pos p)) (drill_tools lines p)
  /\ Forall is_Some (drill_tools lines p).
Proof.
  revert p. induction lines as [|line rest IH]; intros p Hrun.
  - injection Hrun as <-. simpl. now rewrite app_nil_r.
  - simpl in Hrun. unfold mbind, M_bind in Hrun.
    destruct (_parse line p) as [[[]|e] p'] eqn:E; [|discriminate].
    destruct (IH p' Hrun) as [Hq Hall].
    destruct (_parse_hits line p p' E) as [Hp' Hsome].
    assert (Hr : pos p' = pos p) by (rewrite <- (_parse_pos line p); now rewrite E).
    simpl. rewrite E. simpl. rewrite Hq, Hp', Hr, map_app, app_assoc. split.
    + f_equal. f_equal. now destruct (drill_coordinate_line line p).
    + apply Forall_app. split; [|exact Hall].
      destruct (drill_coordinate_line line p); [|constructor].
      constructor; [now apply Hsome | constructor].
Qed.

Lemma parse_lines_pos lines p : pos (final (parse_lines lines p)) = pos p.
Proof.
  revert p. induction lines as [|line rest IH]; intros p; [reflexivity|].
  simpl. unfold mbind, M_bind.
  pose proof (_parse_pos line p) as Hq.
  destruct (_parse line p) as [[[]|e] q]; [|exact Hq].
  rewrite IH. exact Hq.
Qed.

(** C6: when the lines of a file are parsed, the hit sequence has one
    hit for each coordinate line handled in the DRILL phase, in the order
    of the lines, each referring to the tool active at its line; and
    every tool object, in particular every tool of the tool table, has a
    hit count equal to the number of hits that refer to it. *)
Theorem hits_follow_drill_lines (ctx : option (list SinkCall)) (lines : list string)
    (q : ExcellonParser) :
  parse_lines lines (__init__ ctx) = (Ok tt, q) ->
  length (hits q) = length (drill_tools lines (__init__ ctx)) /\
  hits q = map (fun a => (a, pos q)) (drill_tools lines (__init__ ctx)) /\
  Forall is_Some (drill_tools lines (__init__ ctx)) /\
  (forall a t, heap q !! a = Some t ->
     ExcellonTool.hit_count t = Z.of_nat (hits_of a (hits q))) /\
  (forall k a, tools q !! k = Some a -> is_Some (heap q !! a)).
Proof.
  intros Hrun.
  destruct (parse_lines_hits lines _ q Hrun) as [Hh Hall]. simpl in Hh.
  pose proof (parse_lines_consistent lines _ (__init___consistent ctx)) as Hc.
  pose proof (parse_lines_pos lines (__init__ ctx)) as Hq.
  rewrite Hrun in Hc, Hq. destruct Hc as (Hcount & _ & Htab & _). simpl in *.
  rewrite Hq. split_and!; try assumption.
  - now rewrite Hh, length_map.
  - intros k a Hk. apply lookup_lt_is_Some. eauto.
Qed.

(** *** Hits and the cursor *)

Lemma record_hit_shares q : hits_share_cursor q -> hits_share_cursor (final (record_hit q)).
Proof.
  intros Hq h. destruct (active_tool q) as [a|] eqn:Ha.
  - destruct (record_hit_some q a Ha) as (q' & -> & Hh & _ & Hr & _).
    simpl. rewrite Hh, Hr. intros [Hin | Hin]%elem_of_app; [now apply Hq|].
    now apply list_elem_of_singleton in Hin as ->.
  - rewrite (record_hit_none q Ha). simpl.
    intros [Hin | Hin]%elem_of_app; [now apply Hq|].
    now apply list_elem_of_singleton in Hin as ->.
Qed.

Lemma _parse_shares line p : hits_share_cursor p -> hits_share_cursor (final (_parse line p)).
Proof.
  intros Hp. destruct line as [|c line]; [exact Hp|].
  rewrite (_parse_eq _ c) by reflexivity.
  set (d := final (directives (String c line) p)).
  assert (Hd : hits_share_cursor d).
  { intros h. unfold d.
    rewrite (directives_keeps_hits _ p), (directives_keeps_pos _ p). apply Hp. }
  assert (Ht : hits_share_cursor (final (parse_tool (String c line) d))).
  { intros h. rewrite (parse_tool_keeps_hits _ d), (parse_tool_keeps_pos _ d). apply Hd. }
  unfold mbind, M_bind.
  destruct (parse_tool _ d) as [[[]|e] q]; [|exact Ht]. simpl in Ht.
  unfold parse_coordinate, mbind, M_bind, lift, get, modify, when. simpl.
  destruct (Ascii.eqb c "X" || Ascii.eqb c "Y"); [|exact Ht].
  destruct (axis_values _ _ _) as [[x y]|e]; [|exact Ht].
  simpl. destruct (bool_decide (state q = DRILL)); [|exact Ht].
  now apply record_hit_shares.
Qed.

Lemma parse_lines_shares lines p :
  hits_share_cursor p -> hits_share_cursor (final (parse_lines lines p)).
Proof.
  revert p. induction lines as [|line rest IH]; intros p Hp; [exact Hp|].
  simpl. unfold mbind, M_bind.
  pose proof (_parse_shares line p Hp) as Hq.
  destruct (_parse line p) as [[[]|e] q]; [|exact Hq].
  now apply IH.
Qed.

(** However far the parse of a file has gone, and whether or not it has
    failed, every recorded hit reads the cursor as it is now: the hits
    hold the list [self.pos] itself. *)
Theorem hits_read_the_cursor (ctx : option (list SinkCall)) (lines : list string) :
  let q := final (parse_lines lines (__init__ ctx)) in
  forall h, h ∈ hits q -> hit_pos q h = cursor q.
Proof.
  intros q h Hin. unfold hit_pos, cursor. f_equal.
  apply (parse_lines_shares lines (__init__ ctx)); [|exact Hin].
  intros h' Hin'. now apply elem_of_nil in Hin'.
Qed.

(** ** Further properties of the parser *)

(** *** Lines that are neither tool lines nor coordinate lines *)

Lemma directives_state line p :
  state (final (directives line p)) = state (final (parse_state line p)).
Proof.
  destruct line as [|c line]; [reflexivity|].
  rewrite (directives_final _ c) by reflexivity.
  set (q := final (parse_state (String c line) p)).
  apply (keeps_trans state q (final (parse_units (String c line) q))).
  { unfold parse_units. keeps_tac. }
  apply (keeps_trans state _ (final (parse_zeros (String c line)
           (final (parse_units (String c line) q))))).
  { unfold parse_zeros. keeps_tac. }
  unfold parse_notation. keeps_tac.
Qed.

Lemma directives_units line p :
  units (final (directives line p))
  = units (final (parse_units line (final (parse_state line p)))).
Proof.
  destruct line as [|c line].
  - simpl. unfold parse_units, when, mret, M_ret. reflexivity.
  - rewrite (directives_final _ c) by reflexivity.
    set (q := final (parse_units (String c line) (final (parse_state (String c line) p)))).
    apply (keeps_trans units q (final (parse_zeros (String c line) q))).
    { unfold parse_zeros. keeps_tac. }
    unfold parse_notation. keeps_tac.
Qed.

Lemma directives_notation line p :
  notation (final (directives line p))
  = notation (final (parse_notation line p)).
Proof.
  destruct line as [|c line]; [reflexivity|].
  rewrite (directives_final _ c) by reflexivity.
  unfold parse_notation, mbind, M_bind, when, modify, mret, M_ret.
  assert (H : notation (final (parse_zeros (String c line) (final (parse_units (String c line)
                (final (parse_state (String c line) p)))))) = notation p).
  { set (q0 := final (parse_state (String c line) p)).
    apply (keeps_trans notation p q0); [unfold q0, parse_state; keeps_tac|].
    apply (keeps_trans notation q0 (final (parse_units (String c line) q0)));
      [unfold parse_units; keeps_tac | unfold parse_zeros; keeps_tac]. }
  destruct (_ && _ || _), (_ && _ || _); simpl; try reflexivity; exact H.
Qed.

(** X1: a line that is not empty and starts with none of [T], [X], [Y]
    always returns, and can change nothing but the phase, the units,
    [zeros] and the notation: every other attribute of the parser -- the
    format, the zero suppression, the hits, the tool table, the active
    tool, the sink, the reference [pos] -- and both stores, so the tool
    objects and the cursor, are as before. *)
Theorem plain_line_only_sets_modes (p : ExcellonParser) (line : string) (c : ascii) :
  getitem0 line = Ok c ->
  c <> "T"%char -> c <> "X"%char -> c <> "Y"%char ->
  let q := final (_parse line p) in
  fst (_parse line p) = Ok tt /\
  format q = format p /\ zero_suppression q = zero_suppression p /\
  hits q = hits p /\ heap q = heap p /\ tools q = tools p /\
  active_tool q = active_tool p /\ ctx q = ctx p /\
  pos q = pos p /\ lists q = lists p /\ cursor q = cursor p /\
  q = set_notation (notation q) (set_zeros (zeros q)
        (set_units (units q) (set_state (state q) p))).
Proof.
  intros Hc HT HX HY q. subst q.
  rewrite (_parse_tool_line line c p Hc HX HY).
  rewrite (parse_tool_other line c _ Hc HT). simpl.
  set (q := final (directives line p)).
  pose proof (directives_keeps_format line p) as Hf.
  pose proof (directives_keeps_zero_suppression line p) as Hz.
  pose proof (directives_keeps_hits line p) as Hh.
  pose proof (directives_keeps_heap line p) as Hp.
  pose proof (directives_keeps_tools line p) as Ht.
  pose proof (directives_keeps_active_tool line p) as Ha.
  pose proof (directives_keeps_ctx line p) as Hc'.
  pose proof (directives_keeps_pos line p) as Hr.
  pose proof (directives_keeps_lists line p) as Hl.
  unfold keeps in *. fold q in Hf, Hz, Hh, Hp, Ht, Ha, Hc', Hr, Hl.
  split_and!; try assumption; try reflexivity.
  - apply directives_keeps_cursor.
  - destruct q, p. simpl in *. unfold set_notation, set_zeros, set_units, set_state. simpl.
    congruence.
Qed.

(** *** The phase *)

(** X2: precedence of the phase markers on one line.  [G05] gives DRILL
    whatever else the line holds; without it [G00] gives ROUT, also when
    [M48] is there and when the line starts with a percent sign; [M48]
    alone gives HEADER, unless the line starts with a percent sign, which
    then ends the header at once. *)
Theorem marker_precedence (p : ExcellonParser) (line : string) :
  (py_in "G05" line = true -> state (final (_parse line p)) = DRILL) /\
  (py_in "G05" line = false -> py_in "G00" line = true ->
     state (final (_parse line p)) = ROUT) /\
  (forall c, py_in "G05" line = false -> py_in "G00" line = false ->
     py_in "M48" line = true -> getitem0 line = Ok c ->
     state (final (_parse line p)) = if Ascii.eqb c "%" then DRILL else HEADER).
Proof.
  rewrite _parse_state, directives_state.
  unfold parse_state, mbind, M_bind, when, modify, lift, get, mret, M_ret.
  split_and!.
  - intros ->. destruct (py_in "M48" line), (py_in "G00" line); reflexivity.
  - intros -> H00. rewrite H00.
    destruct line as [|c line]; [discriminate H00|].
    destruct (py_in "M48" _); simpl; now rewrite andb_false_r.
  - intros c -> -> -> ->. simpl. now destruct (Ascii.eqb c "%").
Qed.

(** X3: a percent sign ends the header only as the first character of a
    line handled in the HEADER phase.  Such a line without [G00] gives
    DRILL; a line without any marker that is not such a line leaves the
    phase as it is. *)
Theorem percent_ends_header_only (p : ExcellonParser) (line : string) :
  (getitem0 line = Ok "%"%char -> state p = HEADER -> py_in "G00" line = false ->
     state (final (_parse line p)) = DRILL) /\
  (py_in "M48" line = false -> py_in "G00" line = false -> py_in "G05" line = false ->
     ~ (getitem0 line = Ok "%"%char /\ state p = HEADER) ->
     state (final (_parse line p)) = state p).
Proof.
  rewrite _parse_state, directives_state.
  unfold parse_state, mbind, M_bind, when, modify, lift, get, mret, M_ret.
  split.
  - intros -> Hst ->.
    destruct (py_in "M48" line), (py_in "G05" line); simpl; try reflexivity.
    now rewrite Hst.
  - intros -> -> -> Hno. simpl.
    destruct line as [|c line]; [reflexivity|]. simpl.
    destruct (Ascii.eqb c "%") eqn:Ec; [|reflexivity].
    destruct (bool_decide (state p = HEADER)) eqn:Es; [|reflexivity].
    exfalso. apply Hno. apply Ascii.eqb_eq in Ec as ->.
    apply bool_decide_eq_true in Es. auto.
Qed.

Lemma _parse_not_INIT line p :
  state (final (_parse line p)) = INIT -> state p = INIT.
Proof.
  rewrite _parse_state, directives_state.
  unfold parse_state, mbind, M_bind, when, modify, lift, get, mret, M_ret.
  destruct (py_in "M48" line), (py_in "G00" line), (py_in "G05" line); simpl;
    try discriminate;
    destruct line as [|c line]; simpl; try discriminate; try (intros H; exact H);
    destruct (_ && _); simpl; try discriminate; intros H; exact H.
Qed.

(** X4: the parser never goes back to the INIT phase: if it is in INIT
    after any number of lines, failed or not, it was in INIT before
    them. *)
Theorem never_back_to_INIT (p : ExcellonParser) (lines : list string) :
  state (final (parse_lines lines p)) = INIT -> state p = INIT.
Proof.
  revert p. induction lines as [|line rest IH]; intros p; [intros H; exact H|].
  simpl. unfold mbind, M_bind.
  pose proof (_parse_not_INIT line p) as Hq.
  destruct (_parse line p) as [[[]|e] q]; simpl in *; [|exact Hq].
  intros H. apply Hq. now apply IH.
Qed.

(** *** Units, notation and the settings of the parsed file *)

Lemma parse_tool_keeps_units line q : keeps units q (final (parse_tool line q)).
Proof. unfold parse_tool. keeps_tac. Qed.

Lemma parse_coordinate_keeps_units line fmt zs q :
  keeps units q (final (parse_coordinate line fmt zs q)).
Proof. unfold parse_coordinate, record_hit. keeps_tac. Qed.

Lemma parse_tool_keeps_format line q : keeps format q (final (parse_tool line q)).
Proof. unfold parse_tool. keeps_tac. Qed.

Lemma parse_coordinate_keeps_format line fmt zs q :
  keeps format q (final (parse_coordinate line fmt zs q)).
Proof. unfold parse_coordinate, record_hit. keeps_tac. Qed.

Lemma _parse_format line p : format (final (_parse line p)) = format p.
Proof.
  rewrite (_parse_after_directives format);
    auto using parse_tool_keeps_format, parse_coordinate_keeps_format.
  apply directives_keeps_format.
Qed.

(** X5: the units after a line.  [INCH] anywhere on the line, or the line
    [M72], gives inch, also when [METRIC] is on the line too; otherwise
    [METRIC] or the line [M71] gives metric; otherwise the units stay. *)
Theorem units_after_line (p : ExcellonParser) (line : string) :
  units (final (_parse line p))
  = if py_in "INCH" line || String.eqb (py_strip line) "M72" then inch
    else if py_in "METRIC" line || String.eqb (py_strip line) "M71" then metric
    else units p.
Proof.
  rewrite (_parse_after_directives units);
    auto using parse_tool_keeps_units, parse_coordinate_keeps_units.
  rewrite directives_units.
  unfold parse_units, when, modify, mret, M_ret.
  destruct (_ || _); [reflexivity|]. destruct (_ || _); [reflexivity|].
  change (keeps units p (final (parse_state line p))).
  unfold parse_state. keeps_tac.
Qed.

(** X7: no line sets the notation back to absolute: a parser in
    incremental notation is in incremental notation after any lines. *)
Theorem notation_stays_incremental (p : ExcellonParser) (lines : list string) :
  notation p = incremental ->
  notation (final (parse_lines lines p)) = incremental.
Proof.
  revert p. induction lines as [|line rest IH]; intros p Hp; [exact Hp|].
  simpl. unfold mbind, M_bind.
  assert (Hq : notation (final (_parse line p)) = incremental).
  { rewrite _parse_notation, directives_notation.
    unfold parse_notation, mbind, M_bind, when, modify, mret, M_ret.
    destruct (_ && _ || _), (_ && _ || _); simpl; try reflexivity; exact Hp. }
  destruct (_parse line p) as [[[]|e] q]; simpl in *; [|exact Hq].
  now apply IH.
Qed.

Lemma parse_lines_fixed_settings lines p :
  format (final (parse_lines lines p)) = format p /\
  zero_suppression (final (parse_lines lines p)) = zero_suppression p.
Proof.
  revert p. induction lines as [|line rest IH]; intros p; [split; reflexivity|].
  simpl. unfold mbind, M_bind.
  pose proof (_parse_format line p) as Hf.
  pose proof (_parse_zero_suppression line p) as Hz.
  destruct (_parse line p) as [[[]|e] q]; simpl in *; [|split; assumption].
  destruct (IH q) as [Hf' Hz']. split; congruence.
Qed.

(** X6: whatever the lines of the file say, the settings of a parsed file
    have the format (2, 5) and trailing zero suppression of the
    constructor: nothing in the parser assigns either. *)
Theorem parsed_file_has_default_format (ctx : option (list SinkCall))
    (filename : string) (lines : list string) (file : ExcellonFile)
    (q : ExcellonParser) :
  parse filename lines (__init__ ctx) = (Ok file, q) ->
  FileSettings.format (file_settings file) = (2, 5)%nat /\
  FileSettings.zero_suppression (file_settings file) = trailing.
Proof.
  unfold parse, mbind, M_bind, get, mret, M_ret.
  destruct (parse_lines_fixed_settings lines (__init__ ctx)) as [Hf Hz].
  destruct (parse_lines lines (__init__ ctx)) as [[[]|e] s]; simpl in *; [|discriminate].
  intros [= <- <-]. simpl. split; assumption.
Qed.

(** *** Tool lines *)

Lemma parse_tool_define line q tool :
  getitem0 line = Ok "T"%char -> state q = HEADER ->
  from_line line (_settings q) = Ok tool ->
  parse_tool line q
  = (Ok tt, set_tools (<[ExcellonTool.number tool := length (heap q)]> (tools q))
              (set_heap (heap q ++ [tool]) q)).
Proof.
  intros Hc Hst Hf. unfold parse_tool, mbind, M_bind, lift, get, modify.
  rewrite Hc. simpl. rewrite (bool_decide_eq_true_2 _ Hst). simpl.
  rewrite Hf. reflexivity.
Qed.

Lemma parse_tool_define_raise line q e :
  getitem0 line = Ok "T"%char -> state q = HEADER ->
  from_line line (_settings q) = Raise e ->
  parse_tool line q = (Raise e, q).
Proof.
  intros Hc Hst Hf. unfold parse_tool, mbind, M_bind, lift, get, modify.
  rewrite Hc. simpl. rewrite (bool_decide_eq_true_2 _ Hst). simpl.
  rewrite Hf. reflexivity.
Qed.

Lemma parse_tool_select line q n a :
  getitem0 line = Ok "T"%char -> state q <> HEADER ->
  selected_tool_number line = Ok n ->
  tools q !! Some n = Some a ->
  parse_tool line q = (Ok tt, set_active_tool (Some a) q).
Proof.
  intros Hc Hst Hn Hk. unfold parse_tool, mbind, M_bind, lift, get, modify.
  rewrite Hc. simpl. rewrite (bool_decide_eq_false_2 _ Hst). simpl.
  rewrite Hn, Hk. reflexivity.
Qed.

(** X8: a tool line handled in the HEADER phase that [from_line] accepts
    returns; the new tool object is added after the existing ones, which
    stay as they are, and the tool table maps its number to it, replacing
    what the number was mapped to; the active tool, the hits and the
    cursor are as before. *)
Theorem tool_definition_adds_tool (p : ExcellonParser) (line : string)
    (tool : ExcellonTool.t) :
  getitem0 line = Ok "T"%char ->
  state (final (directives line p)) = HEADER ->
  from_line line (_settings (final (directives line p))) = Ok tool ->
  let q := final (_parse line p) in
  fst (_parse line p) = Ok tt /\
  heap q = heap p ++ [tool] /\
  tools q = <[ExcellonTool.number tool := length (heap p)]> (tools p) /\
  (tools q !! ExcellonTool.number tool ≫= (heap q !!.)) = Some tool /\
  active_tool q = active_tool p /\ hits q = hits p /\ cursor q = cursor p.
Proof.
  intros Hc Hst Hf q. subst q.
  rewrite (_parse_tool_line line "T" p Hc) by discriminate.
  rewrite (parse_tool_define line _ tool Hc Hst Hf). simpl.
  rewrite (directives_keeps_heap line p), (directives_keeps_tools line p).
  split_and!; try reflexivity.
  - rewrite lookup_insert_eq. simpl.
    rewrite lookup_app_r by reflexivity. now rewrite Nat.sub_diag.
  - apply directives_keeps_active_tool.
  - apply directives_keeps_hits.
  - apply directives_keeps_cursor.
Qed.

(** X9: a tool line handled in the HEADER phase that [from_line] rejects
    raises the error of [from_line], and neither the tool objects nor the
    tool table, the active tool, the hits or the cursor have changed. *)
Theorem failed_tool_definition_changes_nothing (p : ExcellonParser) (line : string)
    (e : PyExc) :
  getitem0 line = Ok "T"%char ->
  state (final (directives line p)) = HEADER ->
  from_line line (_settings (final (directives line p))) = Raise e ->
  let q := final (_parse line p) in
  fst (_parse line p) = Raise e /\
  heap q = heap p /\ tools q = tools p /\ active_tool q = active_tool p /\
  hits q = hits p /\ cursor q = cursor p.
Proof.
  intros Hc Hst Hf q. subst q.
  rewrite (_parse_tool_line line "T" p Hc) by discriminate.
  rewrite (parse_tool_define_raise line _ e Hc Hst Hf). simpl.
  split_and!; [reflexivity | apply directives_keeps_heap | apply directives_keeps_tools
    | apply directives_keeps_active_tool | apply directives_keeps_hits
    | apply directives_keeps_cursor].
Qed.

(** X10: a tool line handled outside the HEADER phase whose number is a
    key of the tool table returns and makes the object the table maps the
    number to the active tool; the tool table, the tool objects, the hits
    and the cursor are as before. *)
Theorem tool_selection_sets_active_tool (p : ExcellonParser) (line : string)
    (n : Z) (a : loc) :
  getitem0 line = Ok "T"%char ->
  state (final (directives line p)) <> HEADER ->
  selected_tool_number line = Ok n ->
  tools p !! Some n = Some a ->
  let q := final (_parse line p) in
  fst (_parse line p) = Ok tt /\
  active_tool q = Some a /\
  tools q = tools p /\ heap q = heap p /\ hits q = hits p /\ cursor q = cursor p.
Proof.
  intros Hc Hst Hn Hk q. subst q.
  rewrite (_parse_tool_line line "T" p Hc) by discriminate.
  assert (Hkq : tools (final (directives line p)) !! Some n = Some a)
    by (rewrite <- Hk; f_equal; apply directives_keeps_tools).
  rewrite (parse_tool_select line _ n a Hc Hst Hn Hkq). simpl.
  split_and!; [reflexivity | reflexivity | apply directives_keeps_tools
    | apply directives_keeps_heap | apply directives_keeps_hits
    | apply directives_keeps_cursor].
Qed.

(** *** The keys of the tool table *)

Lemma from_line_command_number fmt zs args command args' :
  from_line_command parse_gerber_value fmt zs args command = Ok args' ->
  is_Some (ExcellonTool.kw_number args) -> is_Some (ExcellonTool.kw_number args').
Proof.
  destruct command as [cmd val], args as [nu fe re rp di ma de].
  unfold from_line_command, mbind, Result_bind, rbind. cbv beta iota.
  repeat (destruct (String.eqb cmd _);
          [case_match; intros Hres; inversion Hres; subst; simpl; intros;
             first [assumption | eexists; reflexivity]|]).
  intros Hres. inversion Hres. subst. auto.
Qed.

Lemma from_line_loop_number fmt zs commands args args' :
  from_line_loop parse_gerber_value fmt zs commands args = Ok args' ->
  is_Some (ExcellonTool.kw_number args) -> is_Some (ExcellonTool.kw_number args').
Proof.
  revert args. induction commands as [|command rest IH]; intros args; simpl.
  - now intros [= <-].
  - unfold mbind, Result_bind, rbind.
    destruct (from_line_command _ _ _ _ _) as [args1|e] eqn:E; [|discriminate].
    intros Hl Hn. apply (IH args1 Hl).
    exact (from_line_command_number _ _ _ _ _ E Hn).
Qed.

Lemma re_split_nonempty f s : exists w ws, re_split f s = w :: ws.
Proof.
  destruct s as [|c s]; simpl; [eauto|].
  destruct (f c); [eauto|]. destruct (re_split f s); eauto.
Qed.

Lemma from_line_number line settings tool :
  getitem0 line = Ok "T"%char ->
  from_line line settings = Ok tool ->
  is_Some (ExcellonTool.number tool).
Proof.
  destruct line as [|c rest]; [discriminate|]. intros [= ->].
  unfold from_line.
  change (re_split (fun c => char_in c "BCFHSTZ") (String "T" rest))
    with (EmptyString :: "T"%string :: re_split (fun c => char_in c "BCFHSTZ") rest).
  destruct (re_split_nonempty (fun c => char_in c "BCFHSTZ") rest) as (w & ws & ->).
  simpl. unfold mbind, Result_bind, rbind.
  destruct (py_int w) as [n|e]; [|discriminate]. simpl.
  destruct (from_line_loop _ _ _ _ _) as [args|e] eqn:E; [|discriminate].
  intros [= <-]. simpl.
  apply (from_line_loop_number _ _ _ _ _ E). simpl. eauto.
Qed.

(** X11: the tool that [from_line] builds from a line that starts with
    [T] has a number, whatever other fields follow on the line. *)
Theorem from_line_gives_a_number (line : string) (settings : FileSettings.t)
    (tool : ExcellonTool.t) :
  getitem0 line = Ok "T"%char ->
  from_line line settings = Ok tool ->
  is_Some (ExcellonTool.number tool).
Proof. intros Hc Hf. exact (from_line_number line settings tool Hc Hf). Qed.

Lemma parse_tool_keys_are_numbers line q :
  keys_are_numbers q -> keys_are_numbers (final (parse_tool line q)).
Proof.
  intros Hq. unfold parse_tool, mbind, M_bind, lift, get, modify, raise.
  destruct (getitem0 line) as [c|e] eqn:Hc; [|exact Hq].
  destruct (Ascii.eqb c "T" && bool_decide (state q = HEADER)) eqn:Hb.
  - apply andb_true_iff in Hb as [Hb _]. apply Ascii.eqb_eq in Hb as ->.
    destruct (from_line line (_settings q)) as [tool|e] eqn:E; [|exact Hq].
    unfold keys_are_numbers. simpl. intros k a Hk.
    apply lookup_insert_Some in Hk as [[<- _] | [_ Hk]]; [|exact (Hq k a Hk)].
    exact (from_line_number line _ tool Hc E).
  - destruct (Ascii.eqb c "T" && negb (bool_decide (state q = HEADER))); [|exact Hq].
    destruct (selected_tool_number line) as [n|e]; [|exact Hq].
    destruct (tools q !! Some n) as [a|]; exact Hq.
Qed.

Lemma _parse_keys_are_numbers line p :
  keys_are_numbers p -> keys_are_numbers (final (_parse line p)).
Proof.
  intros Hp. destruct line as [|c line]; [exact Hp|].
  rewrite (_parse_eq _ c) by reflexivity.
  set (d := final (directives (String c line) p)).
  assert (Hd : keys_are_numbers d).
  { unfold keys_are_numbers, d. now rewrite (directives_keeps_tools _ p). }
  apply parse_tool_keys_are_numbers with (line := String c line) in Hd.
  unfold mbind, M_bind.
  destruct (parse_tool _ d) as [[[]|e] q]; [|exact Hd]. simpl in Hd.
  unfold keys_are_numbers. now rewrite (parse_coordinate_keeps_tools _ _ _ q).
Qed.

(** X12: every key of the tool table is a number, never [None], however
    far the parse has gone and whether or not it has failed. *)
Theorem tool_table_keys_are_numbers (ctx : option (list SinkCall))
    (lines : list string) (k : option Z) (a : loc) :
  tools (final (parse_lines lines (__init__ ctx))) !! k = Some a ->
  exists n : Z, k = Some n.
Proof.
  assert (H : forall p, keys_are_numbers p ->
                        keys_are_numbers (final (parse_lines lines p))).
  { induction lines as [|line rest IH]; intros p Hp; [exact Hp|].
    simpl. unfold mbind, M_bind.
    pose proof (_parse_keys_are_numbers line p Hp) as Hq.
    destruct (_parse line p) as [[[]|e] q]; [|exact Hq]. now apply IH. }
  apply (H (__init__ ctx)). intros k' a' Hk. simpl in Hk.
  now rewrite lookup_empty in Hk.
Qed.

(** *** What is never taken back *)

Lemma record_hit_appends q :
  exists h, hits (final (record_hit q)) = hits q ++ [h].
Proof.
  destruct (active_tool q) as [a|] eqn:Ha.
  - destruct (record_hit_some q a Ha) as (q' & -> & Hh & _). eauto.
  - rewrite (record_hit_none q Ha). simpl. eauto.
Qed.

Lemma _parse_appends line p :
  exists new, hits (final (_parse line p)) = hits p ++ new /\ (length new <= 1)%nat.
Proof.
  destruct line as [|c line]; [exists []; simpl; rewrite app_nil_r; auto|].
  rewrite (_parse_eq _ c) by reflexivity.
  set (d := final (directives (String c line) p)).
  assert (Hd : hits d = hits p) by apply directives_keeps_hits.
  pose proof (parse_tool_keeps_hits (String c line) d) as Ht. unfold keeps in Ht.
  unfold mbind, M_bind.
  destruct (parse_tool _ d) as [[[]|e] q]; simpl in Ht.
  2:{ exists []. simpl. rewrite app_nil_r. split; [congruence | lia]. }
  unfold parse_coordinate, mbind, M_bind, lift, get, modify, when. simpl.
  destruct (Ascii.eqb c "X" || Ascii.eqb c "Y").
  2:{ exists []. simpl. rewrite app_nil_r. split; [congruence | lia]. }
  destruct (axis_values _ _ _) as [[x y]|e].
  2:{ exists []. simpl. rewrite app_nil_r. split; [congruence | lia]. }
  simpl. destruct (bool_decide (state q = DRILL)).
  - destruct (record_hit_appends (set_lists (alter (move (notation q) x y) (pos q) (lists q)) q))
      as [h Hh].
    exists [h]. rewrite Hh. simpl. split; [congruence | lia].
  - exists []. simpl. rewrite app_nil_r. split; [congruence | lia].
Qed.

(** X13: hits are only ever appended.  After any lines, failed or not,
    the hits recorded before are still there, in the same order, followed
    by at most one new hit per line. *)
Theorem hits_are_append_only (p : ExcellonParser) (lines : list string) :
  exists new, hits (final (parse_lines lines p)) = hits p ++ new
              /\ (length new <= length lines)%nat.
Proof.
  revert p. induction lines as [|line rest IH]; intros p.
  - exists []. simpl. rewrite app_nil_r. auto.
  - simpl. unfold mbind, M_bind.
    destruct (_parse_appends line p) as (new1 & H1 & L1).
    destruct (_parse line p) as [[[]|e] q]; simpl in H1.
    + destruct (IH q) as (new2 & H2 & L2).
      exists (new1 ++ new2). rewrite H2, H1, app_assoc, length_app. split; [reflexivity | lia].
    + exists new1. simpl. split; [exact H1 | lia].
Qed.

Lemma tool_after_refl t : tool_after t t.
Proof. unfold tool_after. split_and!; first [reflexivity | lia]. Qed.

Lemma tool_after_trans t1 t2 t3 : tool_after t1 t2 -> tool_after t2 t3 -> tool_after t1 t3.
Proof.
  unfold tool_after. intros H1 H2. destruct_and!. split_and!; first [congruence | lia].
Qed.

Lemma tool_after_hit t : tool_after t (ExcellonTool._hit t).
Proof. unfold tool_after. simpl. split_and!; first [reflexivity | lia]. Qed.

(** Every tool object of [hp] is still there in [hp'], after some more
    hits. *)
Lemma heap_after_alter (hp : list ExcellonTool.t) a' a t :
  hp !! a = Some t ->
  exists t', alter ExcellonTool._hit a' hp !! a = Some t' /\ tool_after t t'.
Proof.
  intros Hl. destruct (decide (a' = a)) as [-> | Hne].
  - rewrite list_lookup_alter_eq, Hl. simpl. eauto using tool_after_hit.
  - rewrite list_lookup_alter_ne by exact Hne. eauto using tool_after_refl.
Qed.

Lemma parse_tool_heap line q a t :
  heap q !! a = Some t -> heap (final (parse_tool line q)) !! a = Some t.
Proof.
  intros Hl. unfold parse_tool, mbind, M_bind, lift, get, modify, raise.
  destruct (getitem0 line) as [c|e]; [|exact Hl].
  destruct (Ascii.eqb c "T" && bool_decide (state q = HEADER)).
  - destruct (from_line line (_settings q)) as [tool|e]; [|exact Hl].
    simpl. now apply lookup_app_l_Some.
  - destruct (Ascii.eqb c "T" && negb (bool_decide (state q = HEADER))); [|exact Hl].
    destruct (selected_tool_number line) as [n|e]; [|exact Hl].
    destruct (tools q !! Some n); exact Hl.
Qed.

Lemma parse_coordinate_heap line fmt zs q a t :
  heap q !! a = Some t ->
  exists t', heap (final (parse_coordinate line fmt zs q)) !! a = Some t' /\ tool_after t t'.
Proof.
  intros Hl. unfold parse_coordinate, mbind, M_bind, lift, get, modify, when.
  destruct (getitem0 line) as [c|e]; [|eauto using tool_after_refl].
  destruct (Ascii.eqb c "X" || Ascii.eqb c "Y"); [|eauto using tool_after_refl].
  destruct (axis_values line fmt zs) as [[x y]|e]; [|eauto using tool_after_refl].
  simpl. destruct (bool_decide (state q = DRILL)); [|eauto using tool_after_refl].
  set (q' := set_lists _ q).
  destruct (active_tool q') as [a'|] eqn:Ha.
  - destruct (record_hit_some q' a' Ha) as (q'' & -> & _ & Hp & _).
    simpl. rewrite Hp. now apply heap_after_alter.
  - rewrite (record_hit_none q' Ha). simpl. eauto using tool_after_refl.
Qed.

Lemma _parse_heap line p a t :
  heap p !! a = Some t ->
  exists t', heap (final (_parse line p)) !! a = Some t' /\ tool_after t t'.
Proof.
  intros Hl. destruct line as [|c line]; [eauto using tool_after_refl|].
  rewrite (_parse_eq _ c) by reflexivity.
  set (d := final (directives (String c line) p)).
  assert (Hd : heap d !! a = Some t) by (unfold d; now rewrite (directives_keeps_heap _ p)).
  apply parse_tool_heap with (line := String c line) in Hd.
  unfold mbind, M_bind.
  destruct (parse_tool _ d) as [[[]|e] q]; simpl in Hd; [|eauto using tool_after_refl].
  now apply parse_coordinate_heap.
Qed.

(** X14: tool objects are never removed or redefined in place.  After any
    lines, failed or not, every tool object that existed before is still
    there with the attributes its definition gave it; only its hit count
    may have grown. *)
Theorem tool_objects_persist (p : ExcellonParser) (lines : list string)
    (a : loc) (t : ExcellonTool.t) :
  heap p !! a = Some t ->
  exists t', heap (final (parse_lines lines p)) !! a = Some t' /\ tool_after t t'.
Proof.
  revert p t. induction lines as [|line rest IH]; intros p t Hl.
  - eauto using tool_after_refl.
  - simpl. unfold mbind, M_bind.
    destruct (_parse_heap line p a t Hl) as (t1 & H1 & A1).
    destruct (_parse line p) as [[[]|e] q]; simpl in H1; [|eauto].
    destruct (IH q t1 H1) as (t2 & H2 & A2). eauto using tool_after_trans.
Qed.

(** Parsing is sequential and stops at the first line that raises.
    Parsing [lines1 ++ lines2] is parsing [lines1] and, if that returns,
    parsing [lines2] with the same parser object; if it raises, the lines
    after it have no effect. *)
Lemma parse_lines_app (p : ExcellonParser) (lines1 lines2 : list string) :
  parse_lines (lines1 ++ lines2) p
  = match parse_lines lines1 p with
    | (Ok _, q) => parse_lines lines2 q
    | (Raise e, q) => (Raise e, q)
    end.
Proof.
  revert p. induction lines1 as [|line rest IH]; intros p; [reflexivity|].
  simpl. unfold mbind, M_bind.
  destruct (_parse line p) as [[[]|e] q]; [apply IH | reflexivity].
Qed.

(** *** The sink *)

Lemma parse_tool_keeps_ctx line q : keeps ctx q (final (parse_tool line q)).
Proof. unfold parse_tool. keeps_tac. Qed.

Lemma record_hit_ctx q a :
  active_tool q = Some a ->
  ctx (final (record_hit q))
  = (fun calls => calls ++ [drill (fst <$> cursor q) (snd <$> cursor q)
                             (alter ExcellonTool._hit a (heap q) !! a
                                ≫= ExcellonTool.diameter)]) <$> ctx q
  /\ cursor (final (record_hit q)) = cursor q.
Proof.
  intros Ha. unfold record_hit, mbind, M_bind, get, modify, mret, M_ret. simpl.
  rewrite Ha. simpl. destruct (ctx q) eqn:E; simpl; rewrite ?E; split; reflexivity.
Qed.

(** One line that returns, with a sink attached: the sink gets a [drill]
    call, at the cursor as the line leaves it, exactly when the line is a
    coordinate line in the DRILL phase. *)
Lemma _parse_sink line p q calls :
  _parse line p = (Ok tt, q) -> ctx p = Some calls ->
  exists ds, ctx q = Some (calls ++ ds)
    /\ Forall2 drill_at ds (if drill_coordinate_line line p then [cursor q] else []).
Proof.
  intros Hrun Hctx. unfold drill_coordinate_line.
  destruct (getitem0 line) as [c|e] eqn:Hc.
  2:{ destruct line; [discriminate Hrun | discriminate Hc]. }
  pose proof (directives_keeps_ctx line p) as Hd. unfold keeps in Hd.
  destruct (Ascii.eqb c "X" || Ascii.eqb c "Y") eqn:Hxy.
  - assert (Hxy' : c = "X"%char \/ c = "Y"%char).
    { apply orb_true_iff in Hxy as [H|H]; apply Ascii.eqb_eq in H; auto. }
    rewrite (_parse_coordinate_line line c p Hc Hxy') in Hrun.
    destruct (axis_values line (format p) (zero_suppression p)) as [[x y]|e] eqn:E.
    2:{ rewrite (parse_coordinate_raise line c _ _ _ e Hc Hxy' E) in Hrun. discriminate. }
    rewrite (parse_coordinate_move line c _ _ _ x y Hc Hxy' E) in Hrun.
    simpl in *. destruct (bool_decide (state (final (directives line p)) = DRILL)).
    + set (q' := set_lists _ (final (directives line p))) in *.
      destruct (active_tool q') as [a|] eqn:Ha.
      2:{ rewrite (record_hit_none q' Ha) in Hrun. discriminate. }
      destruct (record_hit_ctx q' a Ha) as [Hc' Hcur].
      rewrite Hrun in Hc', Hcur.
      change (final (Ok tt, q)) with q in Hc', Hcur.
      assert (Hq' : ctx q' = Some calls) by (unfold q'; simpl; congruence).
      rewrite Hq' in Hc'.
      eexists. split; [exact Hc'|]. rewrite Hcur.
      constructor; [|constructor]. eexists. reflexivity.
    + injection Hrun as <-. simpl. exists []. rewrite app_nil_r.
      split; [congruence | constructor].
  - apply orb_false_iff in Hxy as [Hx Hy]. apply Ascii.eqb_neq in Hx, Hy.
    rewrite (_parse_tool_line line c p Hc Hx Hy) in Hrun.
    pose proof (parse_tool_keeps_ctx line (final (directives line p))) as Ht.
    rewrite Hrun in Ht. unfold keeps in Ht. simpl in Ht.
    exists []. rewrite app_nil_r. split; [congruence | constructor].
Qed.

Lemma parse_lines_sink lines p q calls :
  parse_lines lines p = (Ok tt, q) -> ctx p = Some calls ->
  exists ds, ctx q = Some (calls ++ ds)
    /\ Forall2 drill_at ds (drill_cursors parse_gerber_value lines p).
Proof.
  revert p calls. induction lines as [|line rest IH]; intros p calls Hrun Hctx.
  - injection Hrun as <-. exists []. rewrite app_nil_r. split; [exact Hctx | constructor].
  - simpl in Hrun. unfold mbind, M_bind in Hrun.
    destruct (_parse line p) as [[[]|e] p'] eqn:E; [|discriminate].
    destruct (_parse_sink line p p' calls E Hctx) as (ds1 & H1 & F1).
    destruct (IH p' _ Hrun H1) as (ds2 & H2 & F2).
    exists (ds1 ++ ds2). rewrite H2, app_assoc. split; [reflexivity|].
    simpl. rewrite E. simpl. now apply Forall2_app.
Qed.

Lemma drill_cursors_length lines p :
  length (drill_cursors parse_gerber_value lines p) = length (drill_tools lines p).
Proof.
  revert p. induction lines as [|line rest IH]; intros p; [reflexivity|].
  simpl. rewrite !length_app, IH. now destruct (drill_coordinate_line line p).
Qed.

(** X15: a parser constructed with a sink tells it the default format
    once and then, when the parse returns, has made exactly one [drill]
    call per recorded hit, in order, each at the cursor as it was right
    after the coordinate line of the hit. *)
Theorem sink_gets_one_drill_per_hit (calls : list SinkCall) (lines : list string)
    (q : ExcellonParser) :
  parse_lines lines (__init__ (Some calls)) = (Ok tt, q) ->
  exists ds,
    ctx q = Some (calls ++ set_coord_format trailing (2, 5)%nat absolute :: ds)
    /\ length ds = length (hits q)
    /\ Forall2 drill_at ds (drill_cursors parse_gerber_value lines (__init__ (Some calls))).
Proof.
  intros Hrun.
  destruct (parse_lines_sink lines _ q _ Hrun eq_refl) as (ds & Hctx & HF).
  exists ds. split_and!.
  - rewrite Hctx, <- app_assoc. reflexivity.
  - rewrite (Forall2_length _ _ _ HF), drill_cursors_length.
    destruct (parse_lines_hits lines _ q Hrun) as [-> _]. simpl.
    now rewrite length_map.
  - exact HF.
Qed.

(** *** [render] *)

Lemma parse_tool_keeps_lists_length line q :
  length (lists (final (parse_tool line q))) = length (lists q).
Proof. now rewrite (parse_tool_keeps_lists line q). Qed.

Lemma parse_coordinate_lists_length line fmt zs q :
  length (lists (final (parse_coordinate line fmt zs q))) = length (lists q).
Proof.
  unfold parse_coordinate, mbind, M_bind, lift, get, modify, when.
  destruct (getitem0 line) as [c|e]; [|reflexivity].
  destruct (Ascii.eqb c "X" || Ascii.eqb c "Y"); [|reflexivity].
  destruct (axis_values line fmt zs) as [[x y]|e]; [|reflexivity].
  simpl. set (q' := set_lists _ q).
  assert (Hq' : length (lists q') = length (lists q)) by apply length_alter.
  destruct (bool_decide (state q = DRILL)); [|exact Hq'].
  destruct (active_tool q') as [a|] eqn:Ha.
  - destruct (record_hit_some q' a Ha) as (q'' & -> & _ & _ & _ & Hl & _).
    simpl. now rewrite Hl.
  - now rewrite (record_hit_none q' Ha).
Qed.

Lemma _parse_lists_length line p :
  length (lists (final (_parse line p))) = length (lists p).
Proof.
  destruct line as [|c line]; [reflexivity|].
  rewrite (_parse_eq _ c) by reflexivity.
  set (d := final (directives (String c line) p)).
  assert (Hd : length (lists d) = length (lists p))
    by (unfold d; now rewrite (directives_keeps_lists _ p)).
  pose proof (parse_tool_keeps_lists_length (String c line) d) as Ht.
  unfold mbind, M_bind.
  destruct (parse_tool _ d) as [[[]|e] q]; simpl in Ht; [|simpl; congruence].
  cbv beta. rewrite parse_coordinate_lists_length. congruence.
Qed.

Lemma parse_lines_lists_length lines p :
  length (lists (final (parse_lines lines p))) = length (lists p).
Proof.
  revert p. induction lines as [|line rest IH]; intros p; [reflexivity|].
  simpl. unfold mbind, M_bind.
  pose proof (_parse_lists_length line p) as Hq.
  destruct (_parse line p) as [[[]|e] q]; simpl in Hq; [|exact Hq].
  rewrite IH. exact Hq.
Qed.

(** The cursor of a parser is always there to be read. *)
Lemma cursor_is_Some ctx lines :
  is_Some (cursor (final (parse_lines lines (__init__ ctx)))).
Proof.
  unfold cursor. apply lookup_lt_is_Some.
  rewrite parse_lines_pos, parse_lines_lists_length. simpl. lia.
Qed.

Lemma hits_read_the_cursor_all lines ctx :
  forall h, h ∈ hits (final (parse_lines lines (__init__ ctx))) ->
            hit_pos (final (parse_lines lines (__init__ ctx))) h
            = cursor (final (parse_lines lines (__init__ ctx))).
Proof.
  intros h Hin. unfold hit_pos, cursor. f_equal.
  apply (parse_lines_shares lines (__init__ ctx)); [|exact Hin].
  intros h' Hin'. now apply elem_of_nil in Hin'.
Qed.

Lemma render_hits_ok store hs calls :
  Forall (fun h : Hit => is_Some (fst h)) hs ->
  render_hits store hs calls
  = (Ok tt, calls ++ map (fun h : Hit =>
       on_context (drill (fst <$> hit_pos store h) (snd <$> hit_pos store h)
                         (hit_diameter store h))) hs).
Proof.
  intros Hall. revert calls. induction Hall as [|[tool r] hs [a Ha] _ IH]; intros calls.
  - simpl. now rewrite app_nil_r.
  - simpl in Ha. subst tool. simpl. rewrite IH, <- app_assoc. reflexivity.
Qed.

(** X16: [render] on a parsed file returns, and makes one [drill] call
    per hit of the file, in order, with the diameter of the tool of the
    hit, followed by [dump].  Every one of these calls is at the position
    of the cursor at the end of the parse, not at the position of its
    hit. *)
Theorem render_draws_every_hit_at_the_cursor (ctx : option (list SinkCall))
    (filename : string) (lines : list string) (file : ExcellonFile)
    (q : ExcellonParser) (out : string) (calls : list ContextCall) :
  parse filename lines (__init__ ctx) = (Ok file, q) ->
  exists cx cy,
    cursor q = Some (cx, cy) /\
    render file q out calls
    = (Ok tt, calls ++ map (fun h : Hit =>
         on_context (drill (Some cx) (Some cy) (hit_diameter q h)))
         (file_hits file) ++ [dump out]).
Proof.
  unfold parse, mbind, M_bind, get, mret, M_ret.
  destruct (parse_lines lines (__init__ ctx)) as [[[]|e] s] eqn:Hrun; [|discriminate].
  intros [= <- <-]. simpl.
  pose proof (cursor_is_Some ctx lines) as [[cx cy] Hcur]. rewrite Hrun in Hcur. simpl in Hcur.
  exists cx, cy. split; [exact Hcur|].
  destruct (parse_lines_hits lines _ s Hrun) as [Hh Hall]. simpl in Hh.
  pose proof (hits_read_the_cursor_all lines ctx) as Hshare.
  rewrite Hrun in Hshare. simpl in Hshare.
  unfold render. simpl. rewrite render_hits_ok.
  2:{ rewrite Hh. apply Forall_map. simpl. exact Hall. }
  rewrite <- app_assoc. do 3 f_equal.
  apply map_ext_in. intros h Hin. apply list_elem_of_In in Hin.
  now rewrite (Hshare h Hin), Hcur.
Qed.

(** *** Failure on a coordinate line *)

(** X17: a coordinate line with a value that does not decode raises the
    error of the decoder before anything is assigned: the cursor, the
    hits, the tool objects, the tool table and the active tool are as
    before.  In particular an [X] value that decodes is not assigned when
    the [Y] value of the same line does not. *)
Theorem malformed_coordinate_changes_nothing (p : ExcellonParser) (line : string)
    (c : ascii) (e : PyExc) :
  getitem0 line = Ok c ->
  c = "X"%char \/ c = "Y"%char ->
  axis_values line (format p) (zero_suppression p) = Raise e ->
  let q := final (_parse line p) in
  fst (_parse line p) = Raise e /\
  cursor q = cursor p /\ hits q = hits p /\ heap q = heap p /\
  tools q = tools p /\ active_tool q = active_tool p.
Proof.
  intros Hc Hxy E q. subst q.
  rewrite (_parse_coordinate_line line c p Hc Hxy).
  rewrite (parse_coordinate_raise line c _ _ _ e Hc Hxy E). simpl.
  split_and!; [reflexivity | apply directives_keeps_cursor | apply directives_keeps_hits
    | apply directives_keeps_heap | apply directives_keeps_tools
    | apply directives_keeps_active_tool].
Qed.

(** X18: the hit counts are right also when the parse has failed.
    However far the parse has gone, every tool object has a hit count
    equal to the number of hits that refer to it, and the active tool and
    the tools of the hits are existing tool objects; the hit with a null
    tool that a failure for want of an active tool leaves behind is
    counted for no tool. *)
Theorem hit_counts_hold_in_every_outcome (ctx : option (list SinkCall))
    (lines : list string) :
  let q := final (parse_lines lines (__init__ ctx)) in
  (forall a t, heap q !! a = Some t ->
     ExcellonTool.hit_count t = Z.of_nat (hits_of a (hits q))) /\
  (forall a, active_tool q = Some a -> is_Some (heap q !! a)) /\
  (forall h a, h ∈ hits q -> fst h = Some a -> is_Some (heap q !! a)).
Proof.
  intros q.
  destruct (parse_lines_consistent lines _ (__init___consistent ctx))
    as (Hcount & Hact & _ & Hhits).
  split_and!.
  - exact Hcount.
  - intros a Ha. apply lookup_lt_is_Some. now apply Hact.
  - intros h a Hin Hh. apply lookup_lt_is_Some. exact (Hhits h a Hin Hh).
Qed.

(** *** The tokens of a tool definition *)

Lemma append_nil t : EmptyString +:+ t = t.
Proof. reflexivity. Qed.

Lemma append_cons c s t : String c s +:+ t = String c (s +:+ t).
Proof. reflexivity. Qed.

Lemma append_empty_r s : s +:+ EmptyString = s.
Proof. induction s as [|c s IH]; [reflexivity|]. now rewrite append_cons, IH. Qed.

Lemma count_chars_app f s t :
  count_chars f (s +:+ t) = (count_chars f s + count_chars f t)%nat.
Proof.
  induction s as [|c s IH]; [reflexivity|].
  rewrite append_cons. simpl. rewrite IH. lia.
Qed.

Lemma count_chars_none f s :
  string_forall (fun c => negb (f c)) s = true -> count_chars f s = 0%nat.
Proof.
  induction s as [|c s IH]; [reflexivity|]. simpl.
  intros [Hc Hs]%andb_true_iff. apply negb_true_iff in Hc. now rewrite Hc, (IH Hs).
Qed.

Lemma pairwise_pairs {A : Type} (cs : list (A * A)) :
  pairwise (flat_map (fun cv => [fst cv; snd cv]) cs) = cs.
Proof. induction cs as [|[c v] cs IH]; [reflexivity|]. simpl. now rewrite IH. Qed.

Lemma re_split_shape f s :
  exists w cs,
    re_split f s = w :: flat_map (fun cv : string * string => [fst cv; snd cv]) cs
    /\ s = w +:+ commands_text cs
    /\ string_forall (fun c => negb (f c)) w = true
    /\ Forall (fun cv : string * string =>
         (exists c, fst cv = String c EmptyString /\ f c = true)
         /\ string_forall (fun c => negb (f c)) (snd cv) = true) cs.
Proof.
  induction s as [|c s (w & cs & Hs & Ht & Hw & Hcs)].
  - exists EmptyString, []. simpl. auto.
  - simpl. destruct (f c) eqn:Hf.
    + exists EmptyString, ((String c EmptyString, w) :: cs). rewrite Hs. simpl.
      split_and!; try reflexivity.
      * rewrite Ht at 1. reflexivity.
      * constructor; [|exact Hcs]. simpl. eauto.
    + exists (String c w), cs. rewrite Hs. simpl. rewrite Hf. simpl.
      split_and!; try reflexivity; try assumption. rewrite Ht at 1. reflexivity.
Qed.

(** X19: the commands [from_line] reads off a line (lines 132-133) lose
    no text and no letter.  The text before the first command holds none
    of the letters [BCFHSTZ]; each command is one of these letters with
    the text up to the next one, which holds none of them; so there is
    one command for each of these letters on the line, in order, and the
    text before the first letter followed by the commands written back
    is the line. *)
Theorem from_line_commands_cover_the_line (line : string) :
  let is_code := fun c => char_in c "BCFHSTZ" in
  let before := hd EmptyString (re_split is_code line) in
  let commands := pairwise (tail (re_split is_code line)) in
  line = before +:+ commands_text commands /\
  string_forall (fun c => negb (is_code c)) before = true /\
  Forall (fun cv : string * string =>
    (exists c, fst cv = String c EmptyString /\ is_code c = true)
    /\ string_forall (fun c => negb (is_code c)) (snd cv) = true) commands /\
  length commands = count_chars is_code line.
Proof.
  intros is_code before commands. subst before commands.
  destruct (re_split_shape is_code line) as (w & cs & -> & Ht & Hw & Hcs).
  simpl. rewrite pairwise_pairs. split_and!; try assumption.
  rewrite Ht, count_chars_app, (count_chars_none _ _ Hw). simpl.
  clear Ht Hw. induction Hcs as [|[cmd val] cs [[c [Hc Hf]] Hv] _ IH]; [reflexivity|].
  simpl in Hc, Hv. subst cmd. simpl.
  rewrite Hf, append_nil, count_chars_app, (count_chars_none _ _ Hv), <- IH.
  reflexivity.
Qed.

(** *** Lines made of plain tokens *)

Lemma string_forall_app f s t :
  string_forall f (s +:+ t) = string_forall f s && string_forall f t.
Proof.
  induction s as [|c s IH]; [reflexivity|].
  rewrite append_cons. simpl. now rewrite IH, andb_assoc.
Qed.

Lemma string_forall_impl (f g : ascii -> bool) s :
  (forall c, f c = true -> g c = true) ->
  string_forall f s = true -> string_forall g s = true.
Proof.
  intros Hfg. induction s as [|c s IH]; [reflexivity|]. simpl.
  intros [Hc Hs]%andb_true_iff. now rewrite (Hfg c Hc), IH.
Qed.

Lemma lstrip_none f s : string_forall (fun c => negb (f c)) s = true -> lstrip f s = s.
Proof.
  destruct s as [|c s]; [reflexivity|]. simpl.
  intros [Hc _]%andb_true_iff. apply negb_true_iff in Hc. now rewrite Hc.
Qed.

Lemma lstrip_all f s : string_forall f s = true -> lstrip f s = EmptyString.
Proof.
  induction s as [|c s IH]; [reflexivity|]. simpl.
  intros [Hc Hs]%andb_true_iff. rewrite Hc. now apply IH.
Qed.

Lemma rstrip_all f s : string_forall f s = true -> rstrip f s = EmptyString.
Proof.
  induction s as [|c s IH]; [reflexivity|]. simpl.
  intros [Hc Hs]%andb_true_iff. now rewrite (IH Hs), Hc.
Qed.

Lemma rstrip_none f s : string_forall (fun c => negb (f c)) s = true -> rstrip f s = s.
Proof.
  induction s as [|c s IH]; [reflexivity|]. simpl.
  intros [Hc Hs]%andb_true_iff. apply negb_true_iff in Hc.
  rewrite (IH Hs), Hc. now destruct s.
Qed.

Lemma rstrip_app f s w :
  string_forall f w = true -> rstrip f (s +:+ w) = rstrip f s.
Proof.
  intros Hw. induction s as [|c s IH].
  - rewrite append_nil. simpl. now apply rstrip_all.
  - rewrite append_cons. simpl. now rewrite IH.
Qed.

Lemma rstrip_last f s c :
  f c = false -> rstrip f (s +:+ String c EmptyString) = s +:+ String c EmptyString.
Proof.
  intros Hc. induction s as [|d s IH].
  - rewrite append_nil. simpl. now rewrite Hc.
  - rewrite append_cons. simpl. rewrite IH. now destruct s.
Qed.

Lemma py_split_cons sep c s :
  py_split sep (String c s)
  = if Ascii.eqb c sep then EmptyString :: py_split sep s
    else match py_split sep s with
         | w :: ws => String c w :: ws
         | [] => [String c EmptyString]
         end.
Proof. reflexivity. Qed.

Lemma py_split_none sep s :
  string_forall (fun c => negb (Ascii.eqb c sep)) s = true -> py_split sep s = [s].
Proof.
  induction s as [|c s IH]; [reflexivity|].
  rewrite py_split_cons. cbn [string_forall]. intros [Hc Hs]%andb_true_iff.
  apply negb_true_iff in Hc. now rewrite Hc, (IH Hs).
Qed.

Lemma py_split_app sep s r :
  string_forall (fun c => negb (Ascii.eqb c sep)) s = true ->
  py_split sep (s +:+ String sep r) = s :: py_split sep r.
Proof.
  induction s as [|c s IH].
  - intros _. rewrite append_nil, py_split_cons. now rewrite Ascii.eqb_refl.
  - rewrite append_cons, py_split_cons. simpl.
    intros [Hc Hs]%andb_true_iff.
    apply negb_true_iff in Hc. now rewrite Hc, (IH Hs).
Qed.

Lemma re_split_none f s :
  string_forall (fun c => negb (f c)) s = true -> re_split f s = [s].
Proof.
  induction s as [|c s IH]; [reflexivity|]. simpl.
  intros [Hc Hs]%andb_true_iff. apply negb_true_iff in Hc. now rewrite Hc, (IH Hs).
Qed.

(** [s.strip()] of a token without whitespace followed by whitespace. *)
Lemma py_strip_token b w :
  string_forall (fun c => negb (is_space c)) b = true ->
  string_forall is_space w = true ->
  py_strip (b +:+ w) = b.
Proof.
  intros Hb Hw. unfold py_strip. destruct b as [|c b].
  - rewrite append_nil. now rewrite (lstrip_all _ _ Hw).
  - assert (Hc : is_space c = false).
    { simpl in Hb. apply andb_true_iff in Hb as [Hc _]. now apply negb_true_iff in Hc. }
    rewrite append_cons. simpl. rewrite Hc, <- append_cons.
    rewrite (rstrip_app _ _ _ Hw). now apply rstrip_none.
Qed.

(** A decimal digit is neither whitespace, nor a sign, nor one of the
    letters of a tool definition. *)
Lemma digit_char c :
  is_Some (digit_of c) ->
  is_space c = false /\ char_in c "BCFHSTZ" = false /\ Ascii.eqb c "T" = false
  /\ c <> "-"%char /\ c <> "+"%char.
Proof.
  destruct c as [[] [] [] [] [] [] [] []]; vm_compute;
    intros [v Hv]; try discriminate Hv; split_and!; try reflexivity; discriminate.
Qed.

Lemma digits_value_chars acc s n :
  digits_value acc s = Some n ->
  string_forall (fun c => bool_decide (is_Some (digit_of c))) s = true.
Proof.
  revert acc. induction s as [|c s IH]; intros acc; [reflexivity|]. simpl.
  destruct (digit_of c) as [d|] eqn:E; [|discriminate].
  intros H. rewrite (IH _ H), andb_true_r. apply bool_decide_eq_true. eauto.
Qed.

Lemma py_int_digits d w n :
  digits_value 0 d = Some n -> d <> EmptyString ->
  string_forall is_space w = true ->
  py_int (d +:+ w) = Ok n.
Proof.
  intros Hd Hne Hw. unfold py_int.
  pose proof (digits_value_chars _ _ _ Hd) as Hall.
  rewrite py_strip_token; [| |exact Hw].
  2:{ revert Hall. apply string_forall_impl. intros c Hc.
      apply bool_decide_eq_true in Hc. apply digit_char in Hc as (-> & _). reflexivity. }
  destruct d as [|c d]; [now elim Hne|].
  simpl in Hall. apply andb_true_iff in Hall as [Hc _].
  apply bool_decide_eq_true in Hc. apply digit_char in Hc as (_ & _ & _ & Hm & Hp).
  assert (Hbody : match String c d with
                  | String "-"%char r => (true, r)
                  | String "+"%char r => (false, r)
                  | _ => (false, String c d)
                  end = (false, String c d)).
  { destruct c as [[] [] [] [] [] [] [] []]; try reflexivity;
      [now elim Hp | now elim Hm]. }
  rewrite Hbody, Hd. reflexivity.
Qed.

(** X20: the definition and the selection of a tool read the same number
    off a line.  On a line made of [T], decimal digits and trailing
    whitespace, [from_line] builds a tool with the number the digits
    spell, and the selection looks up that same number. *)
Theorem definition_and_selection_read_the_same_number (d w : string) (n : Z)
    (settings : FileSettings.t) :
  digits_value 0 d = Some n -> d <> EmptyString ->
  string_forall is_space w = true ->
  let line := String "T" (d +:+ w) in
  selected_tool_number line = Ok n /\
  from_line line settings
  = Ok (ExcellonTool.__init__ settings
          (ExcellonTool.mk_kwargs (Some n) None None None None None None)).
Proof.
  intros Hd Hne Hw line. subst line.
  pose proof (digits_value_chars _ _ _ Hd) as Hall.
  assert (Hsp : string_forall (fun c => negb (is_space c)) d = true).
  { revert Hall. apply string_forall_impl. intros c Hc.
    apply bool_decide_eq_true in Hc. apply digit_char in Hc as (-> & _). reflexivity. }
  split.
  - unfold selected_tool_number.
    change (String "T" (d +:+ w)) with (String "T" d +:+ w).
    rewrite py_strip_token; [| |exact Hw].
    2:{ cbn [string_forall]. now rewrite Hsp. }
    rewrite py_split_cons, Ascii.eqb_refl.
    rewrite py_split_none.
    2:{ revert Hall. apply string_forall_impl. intros c Hc.
        apply bool_decide_eq_true in Hc. apply digit_char in Hc as (_ & _ & -> & _).
        reflexivity. }
    simpl. transitivity (py_int (d +:+ EmptyString));
      [now rewrite append_empty_r | now apply py_int_digits].
  - unfold from_line.
    change (re_split (fun c => char_in c "BCFHSTZ") (String "T" (d +:+ w)))
      with (EmptyString :: "T"%string :: re_split (fun c => char_in c "BCFHSTZ") (d +:+ w)).
    rewrite re_split_none.
    2:{ rewrite string_forall_app. apply andb_true_iff. split.
        - revert Hall. apply string_forall_impl. intros c Hc.
          apply bool_decide_eq_true in Hc. apply digit_char in Hc as (_ & -> & _).
          reflexivity.
        - revert Hw. apply string_forall_impl. intros c Hc.
          destruct c as [[] [] [] [] [] [] [] []]; try discriminate Hc; reflexivity. }
    cbn [tail pairwise from_line_loop from_line_command].
    unfold mbind, Result_bind, rbind. simpl.
    rewrite (py_int_digits d w n Hd Hne Hw). reflexivity.
Qed.

(** *** The tokens of a coordinate line *)

Lemma space_char c :
  is_space c = true ->
  char_in c "X" = false /\ Ascii.eqb c "Y" = false /\ char_in c " Y" = (Ascii.eqb c " ").
Proof.
  destruct c as [[] [] [] [] [] [] [] []]; vm_compute; intros H;
    try discriminate H; split_and!; reflexivity.
Qed.

Lemma value_chars_no_X s :
  string_forall value_char s = true ->
  string_forall (fun c => negb (char_in c "X")) s = true.
Proof.
  apply string_forall_impl. intros c. unfold value_char. simpl.
  intros [[Hx _]%andb_true_iff _]%andb_true_iff. now rewrite orb_false_r.
Qed.

Lemma value_chars_no_Y s :
  string_forall value_char s = true ->
  string_forall (fun c => negb (Ascii.eqb c "Y")) s = true.
Proof.
  apply string_forall_impl. intros c. unfold value_char.
  now intros [[_ Hy]%andb_true_iff _]%andb_true_iff.
Qed.

Lemma value_chars_no_space s :
  string_forall value_char s = true ->
  string_forall (fun c => negb (is_space c)) s = true.
Proof.
  apply string_forall_impl. intros c. unfold value_char.
  now intros [_ Hs]%andb_true_iff.
Qed.

Lemma spaces_no_X s :
  string_forall is_space s = true ->
  string_forall (fun c => negb (char_in c "X")) s = true.
Proof.
  apply string_forall_impl. intros c Hc. now destruct (space_char c Hc) as (-> & _).
Qed.

Lemma spaces_no_Y s :
  string_forall is_space s = true ->
  string_forall (fun c => negb (Ascii.eqb c "Y")) s = true.
Proof.
  apply string_forall_impl. intros c Hc. now destruct (space_char c Hc) as (_ & -> & _).
Qed.

(** X21: on a line [X<a>Y<b>] followed by whitespace, where [a] and [b]
    hold no [X], no [Y] and no whitespace, the decoder is called on
    exactly [a] and then [b], the line terminator stripped; both axes are
    present when both decode, and a failure of the first call is the
    failure of the line. *)
Theorem xy_line_decodes_both_values (a b w : string) (fmt : nat * nat)
    (zs : ZeroSuppression) :
  string_forall value_char a = true ->
  string_forall value_char b = true ->
  string_forall is_space w = true ->
  axis_values (String "X" (a +:+ String "Y" (b +:+ w))) fmt zs
  = match parse_gerber_value a fmt zs with
    | Ok x => match parse_gerber_value b fmt zs with
              | Ok y => Ok (Some x, Some y)
              | Raise e => Raise e
              end
    | Raise e => Raise e
    end.
Proof.
  intros Ha Hb Hw. unfold axis_values, py_strip_chars.
  set (rest := a +:+ String "Y" (b +:+ w)).
  assert (HnoX : string_forall (fun c => negb (char_in c "X")) rest = true).
  { unfold rest. rewrite string_forall_app, (value_chars_no_X a Ha).
    cbn [string_forall].
    rewrite string_forall_app, (value_chars_no_X b Hb), (spaces_no_X w Hw).
    reflexivity. }
  assert (Hstrip : rstrip (fun c => char_in c "X") (lstrip (fun c => char_in c "X")
                     (String "X" rest)) = rest).
  { change (lstrip (fun c => char_in c "X") (String "X" rest))
      with (lstrip (fun c => char_in c "X") rest).
    rewrite (lstrip_none _ _ HnoX). now apply rstrip_none. }
  assert (Hsplit : py_split "Y" rest = [a; b +:+ w]).
  { unfold rest. rewrite (py_split_app _ _ _ (value_chars_no_Y a Ha)).
    rewrite py_split_none; [reflexivity|].
    now rewrite string_forall_app, (value_chars_no_Y b Hb), (spaces_no_Y w Hw). }
  unfold mbind, Result_bind, rbind. simpl getitem0. cbv beta iota.
  change (Ascii.eqb "X" "X") with true. cbv beta iota.
  rewrite Hstrip, Hsplit. simpl.
  assert (Hpa : py_strip a = a).
  { rewrite <- (append_empty_r a) at 1.
    now apply py_strip_token; [apply value_chars_no_space|]. }
  rewrite Hpa, (py_strip_token b w (value_chars_no_space b Hb) Hw).
  reflexivity.
Qed.

(** X22: on a line that starts with [Y] only spaces and the letter [Y]
    are stripped (line 252): the decoder is called on the value together
    with the newline that ends the line, where an [X] line passes the
    bare value.  Without a newline the decoder is called on the bare
    value.  No [X] value is present. *)
Theorem y_line_passes_the_newline (b : string) (fmt : nat * nat)
    (zs : ZeroSuppression) :
  string_forall (fun c => negb (char_in c " Y")) b = true ->
  axis_values (String "Y" (b +:+ newline)) fmt zs
  = match parse_gerber_value (b +:+ newline) fmt zs with
    | Ok y => Ok (None, Some y)
    | Raise e => Raise e
    end
  /\ axis_values (String "Y" b) fmt zs
     = match parse_gerber_value b fmt zs with
       | Ok y => Ok (None, Some y)
       | Raise e => Raise e
       end.
Proof.
  intros Hb.
  assert (Hbn : string_forall (fun c => negb (char_in c " Y")) (b +:+ newline) = true).
  { rewrite string_forall_app, Hb. reflexivity. }
  assert (Hstrip : forall s, string_forall (fun c => negb (char_in c " Y")) s = true ->
            rstrip (fun c => char_in c " Y") (lstrip (fun c => char_in c " Y") (String "Y" s))
            = s).
  { intros s Hs.
    change (lstrip (fun c => char_in c " Y") (String "Y" s))
      with (lstrip (fun c => char_in c " Y") s).
    now rewrite (lstrip_none _ _ Hs), (rstrip_none _ _ Hs). }
  unfold axis_values, py_strip_chars, mbind, Result_bind, rbind.
  cbn [getitem0]. change (Ascii.eqb "Y" "X") with false. cbv beta iota.
  now rewrite (Hstrip _ Hbn), (Hstrip _ Hb).
Qed.

End ParserFacts.

(** ** The parser run on sample inputs *)

Example py_in_ex : py_in "G05" "XG05Y" = true /\ py_in "G05" "G0G5" = false.
Proof. split; reflexivity. Qed.

Example py_strip_ex : py_strip "  T01  " = "T01"%string.
Proof. reflexivity. Qed.

Example py_split_ex :
  py_split "Y" (py_strip_chars "X" "X010000Y010000") = ["010000"; "010000"]%string.
Proof. reflexivity. Qed.

Example re_split_ex :
  re_split (fun c => char_in c "BCFHSTZ") "T01C0.0100"
  = [""; "T"; "01"; "C"; "0.0100"]%string.
Proof. reflexivity. Qed.

Example py_int_ex : py_int "01" = Ok 1 /\ py_int "" = Raise ValueError.
Proof. split; reflexivity. Qed.

Example decode_ex :
  decode "1250" (2, 5)%nat trailing = Ok 12.5%float /\
  decode "1" (2, 5)%nat trailing = Ok 10%float /\
  decode "1" (2, 5)%nat leading = Ok (scaled 1 5).
Proof. repeat split; reflexivity. Qed.

(** The scenario: one tool object, numbered 1 in the tool table, hit
    once, at [(1, 1)]. *)
Example scenario_ex :
  let q := final (read decode "ncdrill.txt" scenario) in
  fst (read decode "ncdrill.txt" scenario)
  = Ok (mkFile (tools q) (hits q) (_settings q) "ncdrill.txt") /\
  tools q !! Some 1 = Some 0%nat /\
  hits q = [(Some 0%nat, 0%nat)] /\
  (ExcellonTool.hit_count <$> heap q !! 0%nat) = Some 1 /\
  (ExcellonTool.diameter <$> heap q !! 0%nat) = Some (Some (scaled 100 4)) /\
  cursor q = Some (1%float, 1%float) /\
  state q = DRILL.
Proof. vm_compute. repeat split; reflexivity. Qed.

(** ** Two places where the parser departs from its documentation *)

(** C1: the position of a hit is not a snapshot.  The hit recorded by the
    first coordinate line of the file reads [(1, 1)] when it is recorded;
    once the second coordinate line has moved the cursor, the same hit
    reads [(2, 2)], the position of the cursor. *)
Theorem hit_position_follows_cursor :
  let before := final (parse_lines decode one_hit (__init__ None)) in
  let after := final (parse_lines decode two_hits (__init__ None)) in
  exists h : Hit,
    hits before = [h] /\ hit_pos before h = Some (1%float, 1%float) /\
    hits after !! 0%nat = Some h /\ hit_pos after h = Some (2%float, 2%float) /\
    cursor after = Some (2%float, 2%float).
Proof. exists (Some 0%nat, 0%nat). vm_compute. repeat split; reflexivity. Qed.

(** C2: a line with [LZ] does not change the zero suppression of the
    settings.  After the line [INCH,LZ] the parser has [zeros = 'L'], the
    settings of the parsed file still say trailing suppression, and the
    coordinate [X1] that follows is decoded with trailing suppression, as
    10. *)
Theorem LZ_leaves_zero_suppression_trailing :
  let run := parse decode "lz.drl" leading_zeros (__init__ None) in
  Forall (fun line => py_in "LZ" line = true) (take 1 leading_zeros) /\
  zeros (final run) = Some "L"%string /\
  (exists file, fst run = Ok file /\
     FileSettings.zero_suppression (file_settings file) = trailing) /\
  cursor (final run) = Some (10%float, 0%float).
Proof.
  vm_compute. split_and!; try reflexivity.
  - repeat constructor.
  - eexists. split; reflexivity.
Qed.

(** ** The theorems at concrete inputs *)

Lemma incremental_directive_sets_incremental_witness :
  (py_in "ICI" "ICI,OFF" && py_in "ON" "ICI,OFF" || String.eqb (py_strip "ICI,OFF") "G91"
   || (py_in "ICI" "ICI,OFF" && py_in "OFF" "ICI,OFF"
       || String.eqb (py_strip "ICI,OFF") "G90")) = true /\
  notation (final (_parse decode "ICI,OFF" incremental_at_1)) = incremental.
Proof.
  split; [reflexivity|].
  apply (incremental_directive_sets_incremental decode incremental_at_1 "ICI,OFF").
  reflexivity.
Defined.

Lemma drill_without_active_tool_fails_witness :
  state (final (directives "X01" drilling_without_tool)) = DRILL /\
  active_tool drilling_without_tool = None /\
  ~ returns (_parse decode "X01" drilling_without_tool) /\
  fst (_parse decode "X01" drilling_without_tool) = Raise AttributeError.
Proof.
  split; [reflexivity|]. split; [reflexivity|].
  destruct (drill_without_active_tool_fails decode drilling_without_tool "X01" "X"
              eq_refl (or_introl eq_refl) eq_refl eq_refl) as [Hfail Herr].
  split; [exact Hfail|].
  apply (Herr (Some 1%float, None)). reflexivity.
Defined.

Lemma unknown_tool_selection_fails_witness :
  state (final (directives "T99" drilling_without_tool)) <> HEADER /\
  selected_tool_number "T99" = Ok 99 /\
  tools drilling_without_tool !! Some 99 = None /\
  fst (_parse decode "T99" drilling_without_tool) = Raise (KeyError (Some 99)) /\
  active_tool (final (_parse decode "T99" drilling_without_tool)) = None.
Proof.
  assert (H : state (final (directives "T99" drilling_without_tool)) <> HEADER)
    by (vm_compute; discriminate).
  split; [exact H|]. split; [reflexivity|]. split; [reflexivity|].
  exact (unknown_tool_selection_fails decode drilling_without_tool "T99" 99
           eq_refl H eq_refl eq_refl).
Defined.

Lemma hits_follow_drill_lines_witness :
  let q := final (parse_lines decode two_hits (__init__ None)) in
  parse_lines decode two_hits (__init__ None) = (Ok tt, q) /\
  drill_tools decode two_hits (__init__ None) = [Some 0%nat; Some 0%nat] /\
  length (hits q) = 2%nat /\
  (ExcellonTool.hit_count <$> heap q !! 0%nat) = Some (Z.of_nat (hits_of 0%nat (hits q))).
Proof.
  intros q.
  assert (Hrun : parse_lines decode two_hits (__init__ None) = (Ok tt, q))
    by (vm_compute; reflexivity).
  destruct (hits_follow_drill_lines decode None two_hits q Hrun)
    as (Hlen & _ & _ & Hcount & _).
  split; [exact Hrun|]. split; [reflexivity|]. split; [exact Hlen|].
  destruct (heap q !! 0%nat) as [t|] eqn:E; [|discriminate E].
  simpl. f_equal. exact (Hcount 0%nat t E).
Defined.

Lemma coordinate_line_moves_cursor_witness :
  notation (final (directives "X005000" incremental_at_1)) = incremental /\
  axis_values decode "X005000" (format incremental_at_1) (zero_suppression incremental_at_1)
  = Ok (Some 0.5%float, None) /\
  cursor incremental_at_1 = Some (1%float, 0%float) /\
  cursor (final (_parse decode "X005000" incremental_at_1))
  = Some (PrimFloat.add 1 0.5, 0%float).
Proof.
  split; [reflexivity|]. split; [reflexivity|]. split; [reflexivity|].
  destruct (coordinate_line_moves_cursor decode incremental_at_1 "X005000" "X"
              (Some 0.5%float) None 1%float 0%float
              eq_refl (or_introl eq_refl) eq_refl eq_refl) as [_ Hinc].
  exact (Hinc eq_refl).
Defined.



Lemma no_active_tool_failure_not_atomic_witness :
  state (final (directives "X01" drilling_without_tool)) = DRILL /\
  active_tool drilling_without_tool = None /\
  cursor drilling_without_tool = Some (0%float, 0%float) /\
  hits drilling_without_tool = [] /\
  fst (_parse decode "X01" drilling_without_tool) = Raise AttributeError /\
  cursor (final (_parse decode "X01" drilling_without_tool)) = Some (1%float, 0%float) /\
  hits (final (_parse decode "X01" drilling_without_tool)) = [(None, 0%nat)].
Proof.
  split; [reflexivity|]. split; [reflexivity|]. split; [reflexivity|]. split; [reflexivity|].
  exact (no_active_tool_failure_not_atomic decode drilling_without_tool "X01" "X"
           (Some 1%float) None eq_refl (or_introl eq_refl) eq_refl eq_refl eq_refl).
Defined.

Lemma coordinate_outside_drill_only_moves_witness :
  state (final (directives "X01Y02" (__init__ None))) <> DRILL /\
  hits (final (_parse decode "X01Y02" (__init__ None))) = [] /\
  heap (final (_parse decode "X01Y02" (__init__ None))) = [] /\
  active_tool (final (_parse decode "X01Y02" (__init__ None))) = None /\
  fst (_parse decode "X01Y02" (__init__ None)) = Ok tt /\
  cursor (final (_parse decode "X01Y02" (__init__ None))) = Some (1%float, 2%float).
Proof.
  assert (H : state (final (directives "X01Y02" (__init__ None))) <> DRILL)
    by (vm_compute; discriminate).
  destruct (coordinate_outside_drill_only_moves decode (__init__ None) "X01Y02" "X"
              eq_refl (or_introl eq_refl) H) as (Hh & Hp & _ & Ha & Hmove).
  split; [exact H|]. split; [exact Hh|]. split; [exact Hp|]. split; [exact Ha|].
  exact (Hmove (Some 1%float) (Some 2%float) eq_refl).
Defined.

(** ** The further properties at concrete inputs *)

Lemma plain_line_only_sets_modes_witness :
  getitem0 "METRIC,TZ" = Ok "M"%char /\
  fst (_parse decode "METRIC,TZ" with_tool_1) = Ok tt /\
  format (final (_parse decode "METRIC,TZ" with_tool_1)) = format with_tool_1 /\
  zero_suppression (final (_parse decode "METRIC,TZ" with_tool_1))
  = zero_suppression with_tool_1 /\
  hits (final (_parse decode "METRIC,TZ" with_tool_1)) = hits with_tool_1 /\
  heap (final (_parse decode "METRIC,TZ" with_tool_1)) = heap with_tool_1 /\
  units (final (_parse decode "METRIC,TZ" with_tool_1)) = metric /\
  zeros (final (_parse decode "METRIC,TZ" with_tool_1)) = Some "T"%string.
Proof.
  split; [reflexivity|].
  destruct (plain_line_only_sets_modes decode with_tool_1 "METRIC,TZ" "M" eq_refl
              ltac:(discriminate) ltac:(discriminate) ltac:(discriminate))
    as (Hok & Hf & Hz & Hh & Hp & _).
  split; [exact Hok|]. split; [exact Hf|]. split; [exact Hz|].
  split; [exact Hh|]. split; [exact Hp|]. split; reflexivity.
Defined.

Lemma marker_precedence_witness :
  state (final (_parse decode "M48 G00 G05" (__init__ None))) = DRILL /\
  state (final (_parse decode "%M48 G00" in_header)) = ROUT /\
  state (final (_parse decode "%M48" (__init__ None))) = DRILL /\
  state (final (_parse decode "M48" with_tool_1)) = HEADER.
Proof.
  split; [|split; [|split]].
  - exact (proj1 (marker_precedence decode (__init__ None) "M48 G00 G05") eq_refl).
  - exact (proj1 (proj2 (marker_precedence decode in_header "%M48 G00")) eq_refl eq_refl).
  - exact (proj2 (proj2 (marker_precedence decode (__init__ None) "%M48")) "%"%char
             eq_refl eq_refl eq_refl eq_refl).
  - exact (proj2 (proj2 (marker_precedence decode with_tool_1 "M48")) "M"%char
             eq_refl eq_refl eq_refl eq_refl).
Defined.

Lemma percent_ends_header_only_witness :
  state in_header = HEADER /\
  state (final (_parse decode "%" in_header)) = DRILL /\
  state (final (_parse decode "%" (__init__ None))) = INIT.
Proof.
  split; [reflexivity|]. split.
  - exact (proj1 (percent_ends_header_only decode in_header "%") eq_refl eq_refl eq_refl).
  - apply (proj2 (percent_ends_header_only decode (__init__ None) "%") eq_refl eq_refl eq_refl).
    intros [_ H]. discriminate H.
Defined.

Lemma never_back_to_INIT_witness :
  state (final (parse_lines decode ["INCH"; "X1"]%string (__init__ None))) = INIT /\
  state (__init__ None) = INIT.
Proof.
  assert (H : state (final (parse_lines decode ["INCH"; "X1"]%string (__init__ None))) = INIT)
    by reflexivity.
  split; [exact H|].
  exact (never_back_to_INIT decode (__init__ None) ["INCH"; "X1"]%string H).
Defined.

Lemma parsed_file_has_default_format_witness :
  exists file q,
    parse decode "lz.drl" leading_zeros (__init__ None) = (Ok file, q) /\
    FileSettings.format (file_settings file) = (2, 5)%nat /\
    FileSettings.zero_suppression (file_settings file) = trailing.
Proof.
  eexists _, _.
  assert (H : parse decode "lz.drl" leading_zeros (__init__ None) = (Ok _, _))
    by (vm_compute; reflexivity).
  split; [exact H|].
  exact (parsed_file_has_default_format decode None "lz.drl" leading_zeros _ _ H).
Defined.

Lemma notation_stays_incremental_witness :
  notation incremental_at_1 = incremental /\
  notation (final (parse_lines decode ["ICI,OFF"; "G90"; "X1"]%string incremental_at_1))
  = incremental.
Proof.
  split; [reflexivity|].
  exact (notation_stays_incremental decode incremental_at_1
           ["ICI,OFF"; "G90"; "X1"]%string eq_refl).
Defined.

Lemma tool_definition_adds_tool_witness :
  exists tool,
    state (final (directives "T01C0.0100" in_header)) = HEADER /\
    from_line decode "T01C0.0100" (_settings (final (directives "T01C0.0100" in_header)))
    = Ok tool /\
    ExcellonTool.number tool = Some 1 /\
    fst (_parse decode "T01C0.0100" in_header) = Ok tt /\
    heap (final (_parse decode "T01C0.0100" in_header)) = [tool] /\
    tools (final (_parse decode "T01C0.0100" in_header)) !! Some 1 = Some 0%nat.
Proof.
  eexists.
  assert (Hf : from_line decode "T01C0.0100"
                 (_settings (final (directives "T01C0.0100" in_header))) = Ok _)
    by (vm_compute; reflexivity).
  destruct (tool_definition_adds_tool decode in_header "T01C0.0100" _ eq_refl eq_refl Hf)
    as (Hok & Hheap & Htools & _).
  split; [reflexivity|]. split; [exact Hf|]. split; [reflexivity|].
  split; [exact Hok|]. split; [exact Hheap|].
  rewrite Htools. reflexivity.
Defined.

Lemma failed_tool_definition_changes_nothing_witness :
  from_line decode "T01Cx" (_settings (final (directives "T01Cx" in_header)))
  = Raise MalformedNumberError /\
  fst (_parse decode "T01Cx" in_header) = Raise MalformedNumberError /\
  heap (final (_parse decode "T01Cx" in_header)) = [] /\
  tools (final (_parse decode "T01Cx" in_header)) = ∅.
Proof.
  split; [reflexivity|].
  destruct (failed_tool_definition_changes_nothing decode in_header "T01Cx"
              MalformedNumberError eq_refl eq_refl eq_refl) as (He & Hp & Ht & _).
  split; [exact He|]. split; [exact Hp|]. exact Ht.
Defined.

Lemma tool_selection_sets_active_tool_witness :
  tools with_tool_1 !! Some 1 = Some 0%nat /\
  active_tool with_tool_1 = None /\
  fst (_parse decode "T01" with_tool_1) = Ok tt /\
  active_tool (final (_parse decode "T01" with_tool_1)) = Some 0%nat.
Proof.
  assert (Hst : state (final (directives "T01" with_tool_1)) <> HEADER)
    by (vm_compute; discriminate).
  destruct (tool_selection_sets_active_tool decode with_tool_1 "T01" 1 0%nat
              eq_refl Hst eq_refl eq_refl) as (Hok & Ha & _).
  split; [reflexivity|]. split; [reflexivity|]. split; [exact Hok | exact Ha].
Defined.

Lemma from_line_gives_a_number_witness :
  exists tool,
    from_line decode "T7F200S65" (_settings (__init__ None)) = Ok tool /\
    is_Some (ExcellonTool.number tool).
Proof.
  eexists.
  assert (Hf : from_line decode "T7F200S65" (_settings (__init__ None)) = Ok _)
    by (vm_compute; reflexivity).
  split; [exact Hf|].
  exact (from_line_gives_a_number decode "T7F200S65" _ _ eq_refl Hf).
Defined.

Lemma tool_table_keys_are_numbers_witness :
  tools (final (parse_lines decode two_hits (__init__ None))) !! Some 1 = Some 0%nat /\
  exists n : Z, Some 1 = Some n.
Proof.
  assert (H : tools (final (parse_lines decode two_hits (__init__ None))) !! Some 1
              = Some 0%nat) by reflexivity.
  split; [exact H|].
  exact (tool_table_keys_are_numbers decode None two_hits (Some 1) 0%nat H).
Defined.

Lemma tool_objects_persist_witness :
  exists t,
    heap with_tool_1 !! 0%nat = Some t /\
    exists t', heap (final (parse_lines decode
                 (file_lines ["T01"; "X1"; "M48"; "T02"; "T01"]%string) with_tool_1)) !! 0%nat
               = Some t'
               /\ tool_after t t'.
Proof.
  eexists.
  assert (H : heap with_tool_1 !! 0%nat = Some _) by (vm_compute; reflexivity).
  split; [exact H|].
  exact (tool_objects_persist decode with_tool_1
           (file_lines ["T01"; "X1"; "M48"; "T02"; "T01"]%string) 0%nat _ H).
Defined.

Lemma sink_gets_one_drill_per_hit_witness :
  exists q,
    parse_lines decode two_hits (__init__ (Some [])) = (Ok tt, q) /\
    drill_cursors decode two_hits (__init__ (Some []))
    = [Some (1%float, 1%float); Some (2%float, 2%float)] /\
    exists ds,
      ctx q = Some ([] ++ set_coord_format trailing (2, 5)%nat absolute :: ds)
      /\ length ds = length (hits q)
      /\ Forall2 drill_at ds (drill_cursors decode two_hits (__init__ (Some []))).
Proof.
  eexists.
  assert (H : parse_lines decode two_hits (__init__ (Some [])) = (Ok tt, _))
    by (vm_compute; reflexivity).
  split; [exact H|]. split; [reflexivity|].
  exact (sink_gets_one_drill_per_hit decode [] two_hits _ H).
Defined.

Lemma render_draws_every_hit_at_the_cursor_witness :
  exists file q,
    parse decode "two.drl" two_hits (__init__ None) = (Ok file, q) /\
    length (file_hits file) = 2%nat /\
    exists cx cy,
      cursor q = Some (cx, cy) /\
      render file q "two.png" []
      = (Ok tt, [] ++ map (fun h : Hit =>
           on_context (drill (Some cx) (Some cy) (hit_diameter q h)))
           (file_hits file) ++ [dump "two.png"]).
Proof.
  eexists _, _.
  assert (H : parse decode "two.drl" two_hits (__init__ None) = (Ok _, _))
    by (vm_compute; reflexivity).
  split; [exact H|]. split; [reflexivity|].
  exact (render_draws_every_hit_at_the_cursor decode None "two.drl" two_hits _ _
           "two.png" [] H).
Defined.

Lemma malformed_coordinate_changes_nothing_witness :
  axis_values decode "X1Yz" (format with_tool_1) (zero_suppression with_tool_1)
  = Raise MalformedNumberError /\
  fst (_parse decode "X1Yz" with_tool_1) = Raise MalformedNumberError /\
  cursor (final (_parse decode "X1Yz" with_tool_1)) = Some (0%float, 0%float) /\
  hits (final (_parse decode "X1Yz" with_tool_1)) = [].
Proof.
  split; [reflexivity|].
  destruct (malformed_coordinate_changes_nothing decode with_tool_1 "X1Yz" "X"
              MalformedNumberError eq_refl (or_introl eq_refl) eq_refl)
    as (He & Hc & Hh & _).
  split; [exact He|]. split; [exact Hc | exact Hh].
Defined.

Lemma hit_counts_hold_in_every_outcome_witness :
  fst (parse_lines decode (file_lines ["M48"; "T01"; "%"; "X1"]%string) (__init__ None))
  = Raise AttributeError /\
  hits (final (parse_lines decode (file_lines ["M48"; "T01"; "%"; "X1"]%string)
                 (__init__ None))) = [(None, 0%nat)] /\
  (ExcellonTool.hit_count <$>
     heap (final (parse_lines decode (file_lines ["M48"; "T01"; "%"; "X1"]%string)
                    (__init__ None))) !! 0%nat)
  = Some (Z.of_nat (hits_of 0%nat [(None, 0%nat)])).
Proof.
  split; [reflexivity|]. split; [reflexivity|].
  destruct (hit_counts_hold_in_every_outcome decode None
              (file_lines ["M48"; "T01"; "%"; "X1"]%string)) as (Hcount & _).
  destruct (heap _ !! 0%nat) as [t|] eqn:E; [|discriminate E].
  simpl. f_equal. exact (Hcount 0%nat t E).
Defined.

Lemma definition_and_selection_read_the_same_number_witness :
  selected_tool_number ("T" +:+ "01" +:+ newline) = Ok 1 /\
  from_line decode ("T" +:+ "01" +:+ newline) (_settings (__init__ None))
  = Ok (ExcellonTool.__init__ (_settings (__init__ None))
          (ExcellonTool.mk_kwargs (Some 1) None None None None None None)).
Proof.
  exact (definition_and_selection_read_the_same_number decode "01" newline 1
           (_settings (__init__ None)) eq_refl ltac:(discriminate) eq_refl).
Defined.

Lemma xy_line_decodes_both_values_witness :
  axis_values decode ("X" +:+ "010000" +:+ "Y" +:+ "020000" +:+ newline)
    (2, 5)%nat trailing
  = Ok (Some 1%float, Some 2%float).
Proof.
  exact (xy_line_decodes_both_values decode "010000" "020000" newline (2, 5)%nat trailing
           eq_refl eq_refl eq_refl).
Defined.

Lemma y_line_passes_the_newline_witness :
  axis_values decode ("Y" +:+ "0100" +:+ newline) (2, 5)%nat trailing
  = Raise MalformedNumberError /\
  axis_values decode "Y0100" (2, 5)%nat trailing = Ok (None, Some 1%float).
Proof.
  destruct (y_line_passes_the_newline decode "0100" (2, 5)%nat trailing eq_refl)
    as [Hnl Hbare].
  split; [exact Hnl | exact Hbare].
Defined.

(** A literal with more digits than a float holds is rounded once, to the
    nearest float. *)
Example decode_long_ex :
  decode "9223372036854775808.0" (2, 5)%nat trailing = Ok 9223372036854775808%float /\
  decode "0.1000000000000000055511151231257827" (2, 5)%nat trailing = Ok (scaled 1 1).
Proof. split; reflexivity. Qed.
